(** * Helper utilities of the foveated-neural-computation training loop

    A shallow embedding of [utils.py]: activation lookup, device
    selection, gzip-wrapped array persistence, the [Accuracy] metric
    accumulator and the markdown table formatter, with the properties
    the specification states about them.

    Conventions of the embedding.
    - A Python call either returns a value or raises: [result A].
      A method that mutates [self] returns the new object together with
      its outcome, so the state left behind by a call that raises is
      explicit.
    - Python integers are [Z]; tensor dimensions are [nat].
    - Python's true division of two integers is modelled by the exact
      rational quotient in [Q]. *)

From Stdlib Require Import ZArith QArith Qminmax List String Ascii Bool Lia.
From Stdlib Require Import DecimalString.
From stdpp Require Import base gmap strings list.

Import ListNotations.
Open Scope string_scope.
Open Scope list_scope.
Open Scope Z_scope.

(* ===================================================================== *)
(** ** Python values, exceptions and outcomes                             *)
(* ===================================================================== *)

Module Py.

(** The exceptions that the modelled code can let escape. *)
Inductive exn : Type :=
| NotImplementedError
| UnboundLocalError (var : string)
| ZeroDivisionError
| IndexError
| RuntimeError
| FileNotFoundError
| KeyError
| Exception (msg : string).

Inductive result (A : Type) : Type :=
| Ok (a : A)
| Raise (e : exn).
Arguments Ok {A} a.
Arguments Raise {A} e.

Definition bind {A B} (r : result A) (k : A -> result B) : result B :=
  match r with
  | Ok a => k a
  | Raise e => Raise e
  end.

Definition raises {A} (r : result A) : Prop := exists e, r = Raise e.
Definition returns {A} (r : result A) : Prop := exists a, r = Ok a.

(** The dynamically typed values handed to the helpers: [None],
    integers and strings. Structural equality coincides with Python's
    [==] on these. *)
Inductive pyval : Type :=
| PyNone
| PyInt (z : Z)
| PyStr (s : string).

Definition pyval_eqb (a b : pyval) : bool :=
  match a, b with
  | PyNone, PyNone => true
  | PyInt x, PyInt y => Z.eqb x y
  | PyStr s, PyStr t => String.eqb s t
  | _, _ => false
  end.

(** [str(v)], as used by [format] and [join]. *)
Definition str (v : pyval) : string :=
  match v with
  | PyNone => "None"
  | PyInt z => NilZero.string_of_int (Z.to_int z)
  | PyStr s => s
  end.

(** [v == "literal"] for a string literal. *)
Definition is_str (v : pyval) (lit : string) : bool :=
  pyval_eqb v (PyStr lit).

End Py.

Import Py.

Declare Scope py_scope.
Notation "'try!' x ':=' c1 'in' c2" := (Py.bind c1 (fun x => c2))
  (at level 10, x name, c1 at level 100, c2 at level 200) : py_scope.
Open Scope py_scope.

(* ===================================================================== *)
(** ** Activation lookup                                                  *)
(* ===================================================================== *)

Module Activation.

(** The functional activations of [torch.nn.functional]. *)
Inductive functional : Type :=
| F_relu | F_sigmoid | F_tanh | F_leaky_relu.

(** The module activations of [torch.nn], freshly constructed. *)
Inductive module : Type :=
| nn_ReLU | nn_Sigmoid | nn_Tanh | nn_LeakyReLU.

Definition get_act_function (descr : string) : result functional :=
  if String.eqb descr "relu" then Ok F_relu
  else if String.eqb descr "sigm" then Ok F_sigmoid
  else if String.eqb descr "tanh" then Ok F_tanh
  else if String.eqb descr "leaky" then Ok F_leaky_relu
  else Raise NotImplementedError.

Definition get_act_function_module (descr : string) : result module :=
  if String.eqb descr "relu" then Ok nn_ReLU
  else if String.eqb descr "sigm" then Ok nn_Sigmoid
  else if String.eqb descr "tanh" then Ok nn_Tanh
  else if String.eqb descr "leaky" then Ok nn_LeakyReLU
  else Raise NotImplementedError.

(** The keys that name an activation. *)
Definition known_keys : list string := ["relu"; "sigm"; "tanh"; "leaky"].

End Activation.

(* ===================================================================== *)
(** ** Device selection                                                   *)
(* ===================================================================== *)

Module Device.

Section WithTorch.
(** [torch.device] values, and the constructor that parses a device
    string; the library decides which strings it accepts. *)
Variable device : Type.
Variable torch_device : string -> result device.
(** The value [torch.cuda.device_count()] returns on this machine. *)
Variable cuda_device_count : nat.

(** What the function prints, in order. *)
Inductive event : Type :=
| WarnNoGpu
| WarnTooMany (n_gpu_use n_gpu : Z)
| ExecutingOn (d : device).

(** ['cuda:{}'.format(gpu_id)]. *)
Definition cuda_name (gpu_id : pyval) : string := "cuda:" +:+ str gpu_id.

Definition prepare_device (n_gpu_use : Z) (gpu_id : pyval)
  : list event * result device :=
  let n_gpu := Z.of_nat cuda_device_count in
  let '(out1, n_gpu_use) :=
    if (0 <? n_gpu_use) && (n_gpu =? 0)
    then ([WarnNoGpu], 0)
    else ([], n_gpu_use) in
  let '(out2, n_gpu_use) :=
    if n_gpu <? n_gpu_use
    then ([WarnTooMany n_gpu_use n_gpu], n_gpu)
    else ([], n_gpu_use) in
  match torch_device
          (if 0 <? n_gpu_use then cuda_name gpu_id else "cpu") with
  | Ok d => (out1 ++ out2 ++ [ExecutingOn d], Ok d)
  | Raise e => (out1 ++ out2, Raise e)
  end.

(** The value of the local [n_gpu_use] when the device is chosen
    (line 61), after the two guarded assignments. *)
Definition effective_n_gpu_use (n_gpu_use : Z) : Z :=
  let n_gpu := Z.of_nat cuda_device_count in
  let n_gpu_use :=
    if (0 <? n_gpu_use) && (n_gpu =? 0) then 0 else n_gpu_use in
  if n_gpu <? n_gpu_use then n_gpu else n_gpu_use.

(** The warnings a call is expected to print: none, or one of the two. *)
Definition warnings_of (n_gpu_use : Z) : list event :=
  if (0 <? n_gpu_use) && (Z.of_nat cuda_device_count =? 0) then [WarnNoGpu]
  else if Z.of_nat cuda_device_count <? n_gpu_use
       then [WarnTooMany n_gpu_use (Z.of_nat cuda_device_count)]
       else [].

End WithTorch.

Arguments WarnNoGpu {device}.
Arguments WarnTooMany {device} n_gpu_use n_gpu.
Arguments ExecutingOn {device} d.
Arguments prepare_device {device} torch_device cuda_device_count
  n_gpu_use gpu_id.

(** *** The device strings of the library *)

(** [torch.device(s)], from the documentation of the library: a device
    string is a device type, optionally followed by a colon and an
    index. The index is the digit 0 or a run of decimal digits that does
    not start with 0, and has to fit a C [int]; the CPU has no index
    above 0. A device is represented by the string that names it; any
    other string is refused with [RuntimeError]. *)
Definition device_types : list string :=
  ["cpu"; "cuda"; "ipu"; "xpu"; "mkldnn"; "opengl"; "opencl"; "ideep";
   "hip"; "ve"; "fpga"; "maia"; "xla"; "lazy"; "vulkan"; "mps"; "meta";
   "hpu"; "mtia"; "privateuseone"].

Definition is_digit (c : ascii) : bool :=
  (48 <=? nat_of_ascii c)%nat && (nat_of_ascii c <=? 57)%nat.

(** The number a run of digits writes, read from the left. *)
Fixpoint digits_value (acc : Z) (s : string) : Z :=
  match s with
  | EmptyString => acc
  | String c s' => digits_value (10 * acc + Z.of_nat (nat_of_ascii c - 48)) s'
  end.

Fixpoint all_digits (s : string) : bool :=
  match s with
  | EmptyString => true
  | String c s' => is_digit c && all_digits s'
  end.

Definition index_value (s : string) : option Z :=
  match s with
  | EmptyString => None
  | String c s' =>
      if all_digits s
         && (negb (Ascii.eqb c "0") || String.eqb s' "")
         && (digits_value 0 s <=? 2147483647)
      then Some (digits_value 0 s) else None
  end.

(** The text before the first colon, and the text after it if there is
    a colon. *)
Fixpoint split_colon (s : string) : string * option string :=
  match s with
  | EmptyString => (EmptyString, None)
  | String c s' =>
      if Ascii.eqb c ":" then (EmptyString, Some s')
      else let '(name, rest) := split_colon s' in (String c name, rest)
  end.

Definition torch_device_model (s : string) : result string :=
  let '(name, rest) := split_colon s in
  if existsb (String.eqb name) device_types then
    match rest with
    | None => Ok s
    | Some index =>
        match index_value index with
        | Some i =>
            if String.eqb name "cpu" && (0 <? i) then Raise RuntimeError
            else Ok s
        | None => Raise RuntimeError
        end
    end
  else Raise RuntimeError.

End Device.

(* ===================================================================== *)
(** ** Array persistence under gzip                                       *)
(* ===================================================================== *)

Module Npy.

(** File contents are byte strings. A file system maps the files that
    exist, each known by its canonical path, to their contents. *)
Definition bytes : Type := list Byte.byte.

(** The paths a call hands to the operating system. *)
Inductive access : Type :=
| Wrote (path : string)
| Read (path : string).

Section WithLibraries.
(** [numpy]. [np_save arr] is what [np.save(file=f, arr=arr)] writes to
    [f], or the exception it raises (an object array with an element
    that cannot be pickled). [np_load raw] is [np.load(f)] with its
    defaults on a file object that yields [raw]: it refuses a pickled
    payload, which is how [np.save] writes an object array. *)
Variable array : Type.
Variable np_save : array -> result bytes.
Variable np_load : bytes -> result array.
(** [gzip]. [gzip_compress path now raw] is what the file holds once a
    [GzipFile(path, "w")] opened at the time [now] was given [raw] and
    closed; the header records the name and the time.
    [gzip_abandoned path now arr] is what it holds when [np.save] raised
    on [arr] and the stream was left behind. [gzip_decompress] is the
    reading of a [GzipFile(path, "r")] to its end. *)
Variable gzip_compress : string -> Z -> bytes -> bytes.
Variable gzip_abandoned : string -> Z -> array -> bytes.
Variable gzip_decompress : bytes -> result bytes.
(** The operating system. [open_write p] and [open_read p] are the
    canonical path of the file that [p] names when [p] can be opened
    for writing and for reading, and otherwise the exception [open]
    raises, as [FileNotFoundError] for a directory that does not exist.
    Several paths may name one file. The calls neither create nor
    remove directories, so the two functions do not change between
    calls. *)
Variable open_write : string -> result string.
Variable open_read : string -> result string.

(** A call runs against the file system and reports the paths it
    opened. *)
Definition io (A : Type) : Type :=
  gmap string bytes -> gmap string bytes * list access * result A.

(** [now] is the time of the call, which [GzipFile] reads. *)
Definition save_to_npy_gz (arr : array) (filename : string) (now : Z)
  : io unit :=
  fun fs =>
    let path := filename +:+ ".npy.gz" in
    (* f = gzip.GzipFile(filename + ".npy.gz", "w") *)
    match open_write path with
    | Raise e => (fs, [Wrote path], Raise e)
    | Ok file =>
        (* np.save(file=f, arr=array); f.close() *)
        match np_save arr with
        | Ok raw =>
            (<[file := gzip_compress path now raw]> fs, [Wrote path], Ok tt)
        | Raise e =>
            (<[file := gzip_abandoned path now arr]> fs, [Wrote path],
             Raise e)
        end
    end.

Definition load_to_npy_gz (filename : string) : io array :=
  fun fs =>
    let path := filename +:+ ".npy.gz" in
    (* f = gzip.GzipFile(filename + ".npy.gz", "r") *)
    match open_read path with
    | Raise e => (fs, [Read path], Raise e)
    | Ok file =>
        match fs !! file with
        | None => (fs, [Read path], Raise FileNotFoundError)
        | Some content =>
            (* array = np.load(f) *)
            (fs, [Read path],
             try! raw := gzip_decompress content in np_load raw)
        end
    end.

(** The file system that a save leaves behind. *)
Definition fs_after_save (arr : array) (s : string) (now : Z)
           (fs : gmap string bytes) : gmap string bytes :=
  fst (fst (save_to_npy_gz arr s now fs)).

End WithLibraries.

Arguments save_to_npy_gz {array} np_save gzip_compress gzip_abandoned
  open_write arr filename now.
Arguments fs_after_save {array} np_save gzip_compress gzip_abandoned
  open_write arr s now fs.
Arguments load_to_npy_gz {array} np_load gzip_decompress open_read filename.

(** *** An example machine *)

Fixpoint has_slash (p : string) : bool :=
  match p with
  | EmptyString => false
  | String c p' => Ascii.eqb c "/" || has_slash p'
  end.

(** A path without the [./] it may start with, any number of times and
    with any number of slashes; [in_slashes] tells that a [./] was just
    dropped. *)
Fixpoint strip_here (in_slashes : bool) (p : string) : string :=
  match p with
  | EmptyString => p
  | String a p' =>
      if in_slashes && Ascii.eqb a "/" then strip_here true p'
      else
        match p' with
        | String b p'' =>
            if Ascii.eqb a "." && Ascii.eqb b "/" then strip_here true p''
            else p
        | EmptyString => p
        end
  end.

(** The paths of a process whose working directory [/work] has no
    subdirectory, for the relative paths that stay below it (absolute
    paths and paths through [..] are not described): a name without a
    slash is a file of the working directory, for reading as for
    writing, also when written after [./]; a path through a
    subdirectory raises [FileNotFoundError], the subdirectory not being
    there. *)
Definition open_in_work (p : string) : result string :=
  let name := strip_here false p in
  if has_slash name || String.eqb name "" then Raise FileNotFoundError
  else Ok ("/work/" +:+ name).

(** Arrays of bytes kept as they are by codecs that add nothing. *)
Definition plain_save (arr : bytes) : result bytes := Ok arr.
Definition plain_load (raw : bytes) : result bytes := Ok raw.
Definition stored (path : string) (now : Z) (raw : bytes) : bytes := raw.
Definition stored_nothing (path : string) (now : Z) (arr : bytes) : bytes :=
  [].
Definition unstored (content : bytes) : result bytes := Ok content.

Definition example_save (arr : bytes) (filename : string) (now : Z)
  : io unit :=
  save_to_npy_gz plain_save stored stored_nothing open_in_work
    arr filename now.

Definition example_load (filename : string) : io bytes :=
  load_to_npy_gz plain_load unstored open_in_work filename.

End Npy.

(* ===================================================================== *)
(** ** Tensors                                                            *)
(* ===================================================================== *)

(** The part of [torch] that [Accuracy.update] calls. A tensor is a shape
    with its elements in row-major order (contiguous storage, so every
    [view] is legal when the element counts agree). Elements are integers,
    and the tensors of one call are of one integer type: the casts
    [.to(target)] and [.type_as(target)] are then the identity. Tensors
    of floating-point numbers, of mixed types or with other strides are
    outside the model. Operations that [torch] rejects raise. *)
Module Torch.

Record tensor : Type := mk_tensor { shape : list nat; data : list Z }.
(** The result of a comparison: a tensor of booleans. *)
Record btensor : Type := mk_btensor { bshape : list nat; bdata : list bool }.

Definition numel (sh : list nat) : nat := fold_right Nat.mul 1%nat sh.

(** A comparison result holds one entry per position of its shape. *)
Definition bwf (t : btensor) : Prop := length (bdata t) = numel (bshape t).

(** Row-major position of a multi-index, and back. *)
Fixpoint ravel (sh idx : list nat) : nat :=
  match sh, idx with
  | _ :: sh', i :: idx' => (i * numel sh' + ravel sh' idx')%nat
  | _, _ => 0%nat
  end.

Fixpoint unravel (sh : list nat) (k : nat) : list nat :=
  match sh with
  | [] => []
  | _ :: sh' => (k / numel sh')%nat :: unravel sh' (k mod numel sh')%nat
  end.

Definition get (t : tensor) (idx : list nat) : Z :=
  nth (ravel (shape t) idx) (data t) 0.

(** Build a tensor of a given shape from a function of the multi-index. *)
Definition tabulate {A} (sh : list nat) (f : list nat -> A) : list A :=
  map (fun k => f (unravel sh k)) (seq 0 (numel sh)).

(** [t.view(-1)] *)
Definition view_flat (t : tensor) : tensor :=
  mk_tensor [numel (shape t)] (data t).

(** [t.to(other)], [t.type_as(other)] *)
Definition to (t other : tensor) : tensor := t.

(** [t.view_as(other)] *)
Definition view_as (t other : tensor) : result tensor :=
  if Nat.eqb (numel (shape t)) (numel (shape other))
  then Ok (mk_tensor (shape other) (data t))
  else Raise RuntimeError.

(** Broadcasting of two shapes, given innermost dimension first. *)
Fixpoint broadcast_rev (a b : list nat) : result (list nat) :=
  match a, b with
  | [], _ => Ok b
  | _, [] => Ok a
  | x :: a', y :: b' =>
      try! r := broadcast_rev a' b' in
      if Nat.eqb x y then Ok (x :: r)
      else if Nat.eqb x 1 then Ok (y :: r)
      else if Nat.eqb y 1 then Ok (x :: r)
      else Raise RuntimeError
  end.

Definition broadcast_shapes (a b : list nat) : result (list nat) :=
  try! r := broadcast_rev (rev a) (rev b) in Ok (rev r).

(** The index into an operand of shape [sh] for the position [idx] of
    the broadcast result: leading dimensions the operand lacks are
    dropped and dimensions of size one are read at zero. *)
Definition operand_index (sh idx : list nat) : list nat :=
  let idx' := skipn (length idx - length sh) idx in
  map (fun p => if Nat.eqb (fst p) 1 then 0%nat else snd p)
      (combine sh idx').

(** [torch.eq(a, b)], [a.eq(b)], [a == b] *)
Definition eq (a b : tensor) : result btensor :=
  try! sh := broadcast_shapes (shape a) (shape b) in
  Ok (mk_btensor sh
        (tabulate sh (fun idx =>
           Z.eqb (get a (operand_index (shape a) idx))
                 (get b (operand_index (shape b) idx))))).

(** Position of the first maximal element. *)
Fixpoint argmax_scan (l : list Z) (i best_i : nat) (best : Z) : nat :=
  match l with
  | [] => best_i
  | x :: l' =>
      if best <? x then argmax_scan l' (S i) i x
      else argmax_scan l' (S i) best_i best
  end.

Definition first_argmax (l : list Z) : nat :=
  match l with
  | [] => 0%nat
  | x :: l' => argmax_scan l' 1%nat 0%nat x
  end.

(** [t.argmax(dim=1, keepdim=True)] *)
Definition argmax_dim1 (t : tensor) : result tensor :=
  match shape t with
  | n :: c :: rest =>
      if Nat.eqb c 0 then Raise IndexError
      else
        let sh := n :: 1%nat :: rest in
        Ok (mk_tensor sh
              (tabulate sh (fun idx =>
                 match idx with
                 | i :: _ :: ridx =>
                     Z.of_nat (first_argmax
                       (map (fun j => get t (i :: j :: ridx)) (seq 0 c)))
                 | _ => 0
                 end)))
  | _ => Raise IndexError
  end.

(** Exchange the entries at two positions of a list. *)
Definition swap {A} (i j : nat) (l : list A) : list A :=
  match l !! i, l !! j with
  | Some x, Some y => <[i := y]> (<[j := x]> l)
  | _, _ => l
  end.

(** [torch.transpose(t, i, j)] *)
Definition transpose (t : tensor) (i j : nat) : result tensor :=
  if (i <? length (shape t))%nat && (j <? length (shape t))%nat then
    let sh := swap i j (shape t) in
    Ok (mk_tensor sh (tabulate sh (fun idx => get t (swap i j idx))))
  else Raise IndexError.

(** [t.reshape(-1, c)] *)
Definition reshape_rows (t : tensor) (c : nat) : result tensor :=
  let n := numel (shape t) in
  if Nat.eqb c 0 then Raise RuntimeError
  else if Nat.eqb (n mod c) 0
       then Ok (mk_tensor [(n / c)%nat; c] (data t))
       else Raise RuntimeError.

(** [torch.all(b, dim=-1)] *)
Definition all_last (b : btensor) : btensor :=
  match rev (bshape b) with
  | [] => b
  | c :: rinit =>
      let sh := rev rinit in
      mk_btensor sh
        (map (fun k =>
                forallb (fun j => nth (k * c + j) (bdata b) false) (seq 0 c))
             (seq 0 (numel sh)))
  end.

(** [t.size(1)] *)
Definition size1 (t : tensor) : result nat :=
  match shape t with
  | _ :: c :: _ => Ok c
  | _ => Raise IndexError
  end.

(** [t.ndimension()] *)
Definition ndimension (t : tensor) : nat := length (shape t).

(** What [t[idx]] is indexed with: [None], a sequence of integer
    positions, or a boolean mask over the first dimension, the last two
    of one dimension. Integers, slices and index tensors of more
    dimensions are outside the model. *)
Inductive index : Type :=
| IdxNone
| IdxLong (positions : list Z)
| IdxMask (mask : list bool).

(** Row [r] of a tensor whose rows hold [w] elements. *)
Definition row (w : nat) (d : list Z) (r : nat) : list Z :=
  firstn w (skipn (r * w) d).

(** A position counted from the end when negative. *)
Definition wrap_index (n : nat) (i : Z) : result nat :=
  if (0 <=? i) && (i <? Z.of_nat n) then Ok (Z.to_nat i)
  else if (- Z.of_nat n <=? i) && (i <? 0) then Ok (Z.to_nat (i + Z.of_nat n))
  else Raise IndexError.

Fixpoint wrap_all (n : nat) (l : list Z) : result (list nat) :=
  match l with
  | [] => Ok []
  | i :: l' =>
      try! r := wrap_index n i in
      try! rs := wrap_all n l' in
      Ok (r :: rs)
  end.

(** The positions a mask selects. *)
Fixpoint mask_rows (m : list bool) (r : nat) : list nat :=
  match m with
  | [] => []
  | b :: m' => if b then r :: mask_rows m' (S r) else mask_rows m' (S r)
  end.

Definition select_rows (t : tensor) (rest : list nat) (rows : list nat)
  : tensor :=
  mk_tensor (length rows :: rest)
            (concat (map (row (numel rest) (data t)) rows)).

(** [t[idx]] *)
Definition getitem (t : tensor) (idx : index) : result tensor :=
  match idx with
  | IdxNone => Ok (mk_tensor (1%nat :: shape t) (data t))
  | IdxLong l =>
      match shape t with
      | [] => Raise IndexError
      | n :: rest =>
          try! rows := wrap_all n l in Ok (select_rows t rest rows)
      end
  | IdxMask m =>
      match shape t with
      | [] => Raise IndexError
      | n :: rest =>
          if Nat.eqb (length m) n
          then Ok (select_rows t rest (mask_rows m 0))
          else Raise IndexError
      end
  end.

Fixpoint count_true (l : list bool) : nat :=
  match l with
  | [] => 0%nat
  | b :: l' => ((if b then 1 else 0) + count_true l')%nat
  end.

(** [torch.sum(b).item()]: the number of true entries. *)
Definition sum_item (b : btensor) : Z := Z.of_nat (count_true (bdata b)).

(** [b.shape[0]] *)
Definition shape0 (b : btensor) : result Z :=
  match bshape b with
  | [] => Raise IndexError
  | n :: _ => Ok (Z.of_nat n)
  end.

End Torch.

(* ===================================================================== *)
(** ** The accuracy accumulator                                           *)
(* ===================================================================== *)

Module Metric.
Import Torch.

(** [a / b] on Python integers. *)
Definition truediv (a b : Z) : result Q :=
  if b =? 0 then Raise ZeroDivisionError
  else Ok (inject_Z a / inject_Z b)%Q.

(** [a > b] on numbers. *)
Definition gt (a b : Q) : bool := negb (Qle_bool a b).

Record Accuracy : Type := mk_Accuracy {
  _is_multilabel : bool;
  _type : pyval;
  _num_correct : Z;
  _num_examples : Z;
  best_accuracy : Q;
  external_best_acc : Q
}.

Definition set_num_correct (self : Accuracy) (v : Z) : Accuracy :=
  mk_Accuracy (_is_multilabel self) (_type self) v (_num_examples self)
              (best_accuracy self) (external_best_acc self).

Definition set_num_examples (self : Accuracy) (v : Z) : Accuracy :=
  mk_Accuracy (_is_multilabel self) (_type self) (_num_correct self) v
              (best_accuracy self) (external_best_acc self).

Definition set_best_accuracy (self : Accuracy) (v : Q) : Accuracy :=
  mk_Accuracy (_is_multilabel self) (_type self) (_num_correct self)
              (_num_examples self) v (external_best_acc self).

(** [Accuracy.reset]; [Metric.reset] does nothing. *)
Definition reset (self : Accuracy) : Accuracy :=
  set_num_examples (set_num_correct self 0) 0.

(** [Accuracy.__init__]: the counters are [None] until [Metric.__init__]
    calls [reset], which it does before the constructor returns. *)
Definition init (is_multilabel : bool) (type : pyval) : Accuracy :=
  reset (mk_Accuracy is_multilabel type 0 0 (-1 # 1) (-1 # 1)).

(** The locals [correct] and [batch_accuracy] after the first
    [if]/[elif] of [update]; [None] stands for an unbound local. *)
Definition update_first (self : Accuracy) (y_pred target : tensor)
           (batch_compute : bool)
  : result (option btensor * option Q) :=
  if is_str (_type self) "binary" then
    try! correct := eq (to (view_flat y_pred) target) (view_flat target) in
    Ok (Some correct, None)
  else if is_str (_type self) "multiclass" then
    try! pred := argmax_dim1 y_pred in
    try! tv := view_as target pred in
    try! correct := eq pred tv in
    if batch_compute then
      try! batch_dim := shape0 correct in
      try! batch_accuracy := truediv (sum_item correct) batch_dim in
      Ok (Some correct, Some batch_accuracy)
    else Ok (Some correct, None)
  else Ok (None, None).

(** The local [correct] after the second [if]/[elif]. *)
Definition update_second (self : Accuracy) (y_pred target : tensor)
           (idx : index) (correct : option btensor)
  : result (option btensor) :=
  if is_str (_type self) "multilabel" then
    try! num_classes := size1 y_pred in
    let last_dim := ndimension y_pred in
    try! yt := transpose y_pred 1 (last_dim - 1) in
    try! y_pred := reshape_rows yt num_classes in
    try! tt := transpose target 1 (last_dim - 1) in
    try! target := reshape_rows tt num_classes in
    try! e := eq target (to y_pred target) in
    Ok (Some (all_last e))
  else if is_str (_type self) "semisupervised" then
    try! target := getitem target idx in
    try! y_pred := getitem y_pred idx in
    try! pred := argmax_dim1 y_pred in
    try! tv := view_as target pred in
    try! correct := eq pred tv in
    Ok (Some correct)
  else Ok correct.

(** The value of [correct] at line 165, when the call gets there. *)
Definition correct_of (self : Accuracy) (output target : tensor)
           (batch_compute : bool) (idx : index)
  : result (option btensor * option Q) :=
  try! st := update_first self output target batch_compute in
  try! correct := update_second self output target idx (fst st) in
  Ok (correct, snd st).

(** [Accuracy.update]: the object after the call and the outcome. A
    call that returns yields [None] or the batch accuracy. *)
Definition update (self : Accuracy) (output target : tensor)
           (batch_compute : bool) (idx : index)
  : Accuracy * result (option Q) :=
  match correct_of self output target batch_compute idx with
  | Raise e => (self, Raise e)
  | Ok (None, _) => (self, Raise (UnboundLocalError "correct"))
  | Ok (Some correct, batch_accuracy) =>
      let self := set_num_correct self (_num_correct self + sum_item correct) in
      match shape0 correct with
      | Raise e => (self, Raise e)
      | Ok n =>
          let self := set_num_examples self (_num_examples self + n) in
          if batch_compute then
            match batch_accuracy with
            | Some v => (self, Ok (Some v))
            | None => (self, Raise (UnboundLocalError "batch_accuracy"))
            end
          else (self, Ok None)
      end
  end.

Definition get_best (self : Accuracy) : Q := best_accuracy self.

Definition compute (self : Accuracy) : Accuracy * result Q :=
  if _num_examples self =? 0 then
    (self, Raise (Exception
       "Accuracy must have at least one example before it can be computed."))
  else
    let acc := (inject_Z (_num_correct self) / inject_Z (_num_examples self))%Q in
    let self :=
      if gt acc (best_accuracy self) then set_best_accuracy self acc
      else self in
    (self, Ok (inject_Z (_num_correct self) / inject_Z (_num_examples self))%Q).

(** One call of [update] with its arguments. *)
Record batch : Type := mk_batch {
  output : tensor;
  target : tensor;
  batch_compute : bool;
  idx : index
}.

Definition update_with (self : Accuracy) (b : batch) : Accuracy :=
  fst (update self (output b) (target b) (batch_compute b) (idx b)).

(** The object after a sequence of [update] calls, the caller going on
    after a call that raised. *)
Definition run_updates (self : Accuracy) (bs : list batch) : Accuracy :=
  fold_left update_with bs self.

(** What one call adds to the two counters: the number of true entries
    of [correct] and its first dimension, nothing when the call raises
    before line 165. *)
Definition batch_counts (self : Accuracy) (b : batch) : Z * Z :=
  match correct_of self (output b) (target b) (batch_compute b) (idx b) with
  | Ok (Some correct, _) =>
      (sum_item correct,
       match shape0 correct with Ok n => n | Raise _ => 0 end)
  | _ => (0, 0)
  end.

Definition zsum (l : list Z) : Z := fold_right Z.add 0 l.

(** The counts summed over the calls of a sequence. *)
Definition total_correct (self : Accuracy) (bs : list batch) : Z :=
  zsum (map (fun b => fst (batch_counts self b)) bs).

Definition total_examples (self : Accuracy) (bs : list batch) : Z :=
  zsum (map (fun b => snd (batch_counts self b)) bs).

(** A batch without examples, as a loader that ran dry hands over. *)
Definition empty_batch : batch :=
  mk_batch (mk_tensor [0%nat] []) (mk_tensor [0%nat] []) false IdxNone.

(** One image of two pixels and two classes, every pixel labelled
    right: predictions of shape (1, 2, 2), targets of shape (1, 2). *)
Definition pixel_batch : batch :=
  mk_batch (mk_tensor [1; 2; 2]%nat [0; 0; 1; 1])
           (mk_tensor [1; 2]%nat [1; 1]) false IdxNone.

(** The inputs for which each update counts one example per prediction:
    any input in binary and multilabel mode, predictions of shape (N, C)
    in multiclass mode, and such predictions indexed by a sequence of
    positions or by a mask over the examples, of one dimension either,
    in semisupervised mode. *)
Definition one_example_per_prediction (self : Accuracy) (b : batch) : Prop :=
  _type self = PyStr "binary"
  \/ _type self = PyStr "multilabel"
  \/ (_type self = PyStr "multiclass"
      /\ exists n c, shape (output b) = [n; c])
  \/ (_type self = PyStr "semisupervised"
      /\ (exists n c, shape (output b) = [n; c])
      /\ ((exists positions, idx b = IdxLong positions)
          \/ (exists mask, idx b = IdxMask mask))).

(** Three examples scored over two classes, with their labels. *)
Definition row_batch : batch :=
  mk_batch (mk_tensor [3; 2]%nat [1; 2; 5; 0; 3; 3])
           (mk_tensor [3%nat] [1; 0; 1]) false IdxNone.

(** Three yes/no predictions with their targets. *)
Definition flat_batch : batch :=
  mk_batch (mk_tensor [3%nat] [1; 0; 1]) (mk_tensor [3%nat] [1; 1; 1])
           false IdxNone.

(** The number of positions at which two sequences agree. *)
Fixpoint agreements (l1 l2 : list Z) : nat :=
  match l1, l2 with
  | x :: l1', y :: l2' =>
      ((if Z.eqb x y then 1 else 0) + agreements l1' l2')%nat
  | _, _ => 0%nat
  end.

(** The number of examples whose label names the position of the first
    largest of their [c] scores; the scores of the examples follow one
    another. *)
Fixpoint row_hits (c : nat) (scores labels : list Z) : nat :=
  match labels with
  | [] => 0%nat
  | y :: labels' =>
      ((if Z.eqb (Z.of_nat (first_argmax (firstn c scores))) y then 1 else 0)
       + row_hits c (skipn c scores) labels')%nat
  end.

(** The number of the first [n] examples whose [c] predicted labels all
    equal their [c] target labels; the labels of the examples follow
    one another. *)
Fixpoint row_matches (n c : nat) (preds targets : list Z) : nat :=
  match n with
  | O => 0%nat
  | S n' =>
      ((if forallb (fun p => Z.eqb (fst p) (snd p))
                   (combine (firstn c targets) (firstn c preds))
        then 1 else 0)
       + row_matches n' c (skipn c preds) (skipn c targets))%nat
  end.

(** Two examples with three labels each; the first is matched in full. *)
Definition label_batch : batch :=
  mk_batch (mk_tensor [2; 3]%nat [1; 0; 1; 0; 0; 1])
           (mk_tensor [2; 3]%nat [1; 0; 1; 0; 1; 1]) false IdxNone.

(** The methods a caller may invoke between two [compute] calls. *)
Inductive call : Type :=
| CallReset
| CallUpdate (b : batch)
| CallCompute.

(** The relation between the counters that an accuracy needs. *)
Definition counters_ordered (self : Accuracy) : Prop :=
  0 <= _num_correct self <= _num_examples self.

Definition step (self : Accuracy) (c : call) : Accuracy :=
  match c with
  | CallReset => reset self
  | CallUpdate b => update_with self b
  | CallCompute => fst (compute self)
  end.

End Metric.

(* ===================================================================== *)
(** ** Markdown tables                                                    *)
(* ===================================================================== *)

Module Markdown.

(** A [dict] keeps its entries in insertion order and holds a key once. *)
Definition pydict : Type := list (pyval * pyval).

Definition keys (d : pydict) : list pyval := map fst d.
Definition values (d : pydict) : list pyval := map snd d.
Definition well_formed (d : pydict) : Prop := List.NoDup (keys d).

(** [d[k]] *)
Fixpoint getitem (d : pydict) (k : pyval) : result pyval :=
  match d with
  | [] => Raise KeyError
  | (k', v) :: d' => if pyval_eqb k' k then Ok v else getitem d' k
  end.

(** [d[k] = v] *)
Fixpoint setitem (d : pydict) (k v : pyval) : pydict :=
  match d with
  | [] => [(k, v)]
  | (k', v') :: d' =>
      if pyval_eqb k' k then (k', v) :: d' else (k', v') :: setitem d' k v
  end.

(** [range(start, stop, step)] for a positive step. *)
Definition py_range (start stop step : nat) : list nat :=
  map (fun j => (start + j * step)%nat)
      (seq 0 ((stop - start + (step - 1)) / step)%nat).

(** [{k: input[k] for k in ks}], built entry by entry. *)
Fixpoint comprehension (input : pydict) (ks : list pyval) (acc : pydict)
  : result pydict :=
  match ks with
  | [] => Ok acc
  | k :: ks' =>
      try! v := getitem input k in
      comprehension input ks' (setitem acc k v)
  end.

(** The generator [get_chunk]: one dict per element of the range, each
    built from the next [size] keys of the shared iterator [it]
    ([islice(it, size)] consumes them). *)
Fixpoint get_chunk_loop (input : pydict) (size : nat) (it : list pyval)
         (rng : list nat) : result (list pydict) :=
  match rng with
  | [] => Ok []
  | _ :: rng' =>
      try! item := comprehension input (firstn size it) [] in
      try! rest := get_chunk_loop input size (skipn size it) rng' in
      Ok (item :: rest)
  end.

Definition get_chunk (input : pydict) (size : nat) : result (list pydict) :=
  get_chunk_loop input size (keys input) (py_range 0 (length input) size).

(** [sep.join(l)] *)
Fixpoint join (sep : string) (l : list string) : string :=
  match l with
  | [] => ""
  | [x] => x
  | x :: l' => x +:+ sep +:+ join sep l'
  end.

(** [s * n] *)
Fixpoint repeat_str (s : string) (n : nat) : string :=
  match n with
  | O => ""
  | S n' => s +:+ repeat_str s n'
  end.

Definition newline : string := String (ascii_of_nat 10) "".

(** The body of the loop of [dict_to_md]: the table of one chunk. *)
Definition markdown_table (item : pydict) : string :=
  let markdowntable := "" in
  let markdownheader :=
    ("| " +:+ join " | " (map str (keys item))) +:+ " |" in
  let markdownheaderseparator :=
    repeat_str "|-----" (length (keys item)) +:+ "|" in
  let markdowntable := markdowntable +:+ (markdownheader +:+ newline) in
  let markdowntable :=
    markdowntable +:+ (markdownheaderseparator +:+ newline) in
  let markdownrow :=
    fold_left (fun row kv => row +:+ (("| " +:+ str (snd kv)) +:+ " "))
              item "" in
  let markdowntable := markdowntable +:+ ((markdownrow +:+ "|") +:+ newline) in
  markdowntable.

Definition dict_to_md (dict_input : pydict) (vis_size : pyval)
  : result (list string) :=
  try! items := get_chunk dict_input 10 in
  Ok (map markdown_table items).

(** A report of three settings. *)
Definition sample_dict : pydict :=
  [(PyStr "lr", PyStr "0.01"); (PyStr "epochs", PyInt 30);
   (PyStr "seed", PyNone)].

(** [s.replace(old, new)] for a pattern [old] of one character. *)
Fixpoint replace_char (old : ascii) (new : string) (s : string) : string :=
  match s with
  | EmptyString => EmptyString
  | String c s' =>
      if Ascii.eqb c old then new +:+ replace_char old new s'
      else String c (replace_char old new s')
  end.

Definition newline_char : ascii := ascii_of_nat 10.

(** The local [description_md] of [get_markdown_description] when it is
    returned: line breaks and spaces made explicit, brackets escaped. *)
Definition description_md (description_json : string) : string :=
  let description_md :=
    replace_char " " "&nbsp;"
      (replace_char newline_char "<br>" description_json) in
  replace_char "]" "\]" (replace_char "[" "\[" description_md).

Definition get_markdown_description (description_json : string)
           (exp_id : pyval) : string :=
  let markdown := "# Experiment " +:+ str exp_id +:+ newline +:+ newline in
  markdown +:+ description_md description_json.

(** What one character of a description becomes. *)
Definition escape_char (c : ascii) : string :=
  if Ascii.eqb c newline_char then "<br>"
  else if Ascii.eqb c " " then "&nbsp;"
  else if Ascii.eqb c "[" then "\["
  else if Ascii.eqb c "]" then "\]"
  else String c EmptyString.

Definition backslash : ascii := ascii_of_nat 92.

Definition is_bracket (c : ascii) : bool :=
  Ascii.eqb c "[" || Ascii.eqb c "]".

(** Whether every bracket of [s] comes right after a backslash, [prev]
    being the character before [s]. *)
Fixpoint brackets_escaped_from (prev : ascii) (s : string) : bool :=
  match s with
  | EmptyString => true
  | String c s' =>
      (if is_bracket c then Ascii.eqb prev backslash else true)
      && brackets_escaped_from c s'
  end.

(** *** The specification's reading *)

(** Chunk [i] of a list cut into consecutive pieces of [n]. *)
Definition chunk_at {A} (n : nat) (l : list A) (i : nat) : list A :=
  firstn n (skipn (i * n) l).

(** The consecutive chunks of [n]; the last one holds what is left. *)
Definition chunks {A} (n : nat) (l : list A) : list (list A) :=
  map (chunk_at n l) (seq 0 ((length l + (n - 1)) / n)%nat).

Definition header_row (ks : list pyval) : string :=
  "| " +:+ join " | " (map str ks) +:+ " |".

Definition separator_row (n : nat) : string :=
  repeat_str "|-----" n +:+ "|".

Definition concat_strings (l : list string) : string :=
  fold_right String.append "" l.

Definition value_cell (v : pyval) : string := "| " +:+ str v +:+ " ".

Definition value_row (vs : list pyval) : string :=
  concat_strings (map value_cell vs) +:+ "|".

(** A table: header, separator and one row of values, a line each. *)
Definition table_of_chunk (c : pydict) : string :=
  header_row (keys c) +:+ newline
  +:+ separator_row (length c) +:+ newline
  +:+ value_row (values c) +:+ newline.

End Markdown.

(* ===================================================================== *)
(** ** Activation lookup: properties                                      *)
(* ===================================================================== *)

Section ActivationFacts.
Import Activation.

(** C4. For every string [descr], both lookups return the activation
    matching the key when [descr] is "relu", "sigm", "tanh" or "leaky",
    and raise [NotImplementedError] for every other string. *)
Theorem get_act_function_dispatch (descr : string) :
  (descr = "relu" /\ get_act_function descr = Ok F_relu
     /\ get_act_function_module descr = Ok nn_ReLU)
  \/ (descr = "sigm" /\ get_act_function descr = Ok F_sigmoid
     /\ get_act_function_module descr = Ok nn_Sigmoid)
  \/ (descr = "tanh" /\ get_act_function descr = Ok F_tanh
     /\ get_act_function_module descr = Ok nn_Tanh)
  \/ (descr = "leaky" /\ get_act_function descr = Ok F_leaky_relu
     /\ get_act_function_module descr = Ok nn_LeakyReLU)
  \/ (~ In descr known_keys
     /\ get_act_function descr = Raise NotImplementedError
     /\ get_act_function_module descr = Raise NotImplementedError).
Proof.
  unfold get_act_function, get_act_function_module, known_keys.
  destruct (String.eqb_spec descr "relu") as [->|H1]; [left; auto|].
  destruct (String.eqb_spec descr "sigm") as [->|H2]; [right; left; auto|].
  destruct (String.eqb_spec descr "tanh") as [->|H3];
    [right; right; left; auto|].
  destruct (String.eqb_spec descr "leaky") as [->|H4];
    [right; right; right; left; auto|].
  right; right; right; right. split; [|split]; try reflexivity.
  simpl. intros [E|[E|[E|[E|[]]]]]; congruence.
Qed.

End ActivationFacts.

(* ===================================================================== *)
(** ** Device selection: properties                                       *)
(* ===================================================================== *)

Section DeviceFacts.
Import Device.

Variable device : Type.
Variable torch_device : string -> result device.
Variable n_gpu : nat.

(** The count in force when the device is chosen is the smaller of the
    requested and the available one, whatever the sign of the request. *)
Lemma effective_n_gpu_use_min (n_gpu_use : Z) :
  effective_n_gpu_use n_gpu n_gpu_use = Z.min n_gpu_use (Z.of_nat n_gpu).
Proof.
  unfold effective_n_gpu_use.
  destruct (Z.ltb_spec 0 n_gpu_use), (Z.eqb_spec (Z.of_nat n_gpu) 0);
    simpl; repeat case_match;
    repeat match goal with
           | H : (_ <? _) = true |- _ => apply Z.ltb_lt in H
           | H : (_ <? _) = false |- _ => apply Z.ltb_ge in H
           end; lia.
Qed.

(** The device handed back is the one [torch.device] builds from the
    name that the effective count selects. *)
Lemma prepare_device_outcome (n_gpu_use : Z) (gpu_id : pyval) :
  snd (prepare_device torch_device n_gpu n_gpu_use gpu_id) =
  torch_device (if 0 <? effective_n_gpu_use n_gpu n_gpu_use
                then "cuda:" +:+ str gpu_id else "cpu").
Proof.
  unfold prepare_device, effective_n_gpu_use, cuda_name.
  destruct ((0 <? n_gpu_use) && (Z.of_nat n_gpu =? 0));
    [destruct (Z.of_nat n_gpu <? 0) | destruct (Z.of_nat n_gpu <? n_gpu_use)];
    match goal with
    | |- context [torch_device ?s] => destruct (torch_device s)
    end; reflexivity.
Qed.

(** C6, amended. For a requested count [n_gpu_use], an available count
    [n_gpu] and any [gpu_id], the call clamps the count to the available
    one: to 0, with the warning that there is no GPU, when none is
    available, and to [n_gpu], with the warning that too many are
    requested, when the request exceeds it; no warning is printed when
    the count is left as requested. It then returns what [torch.device]
    returns, for ['cpu'] when the clamped count is zero and for
    ['cuda:{gpu_id}'] otherwise: the device when the library accepts the
    string, its exception when it does not. *)
Theorem prepare_device_clamps_and_delegates (n_gpu_use : Z)
        (gpu_id : pyval) :
  0 <= n_gpu_use ->
  let available := Z.of_nat n_gpu in
  let clamped := Z.min n_gpu_use available in
  let call := prepare_device torch_device n_gpu n_gpu_use gpu_id in
  let line := match snd call with
              | Ok d => [ExecutingOn d]
              | Raise _ => []
              end in
  (available = 0 -> clamped = 0)
  /\ (available < n_gpu_use -> clamped = available)
  /\ (n_gpu_use <= available -> clamped = n_gpu_use)
  /\ (clamped = n_gpu_use -> fst call = line)
  /\ (clamped <> n_gpu_use -> available = 0 -> fst call = WarnNoGpu :: line)
  /\ (clamped <> n_gpu_use -> available <> 0 ->
      fst call = WarnTooMany n_gpu_use clamped :: line)
  /\ (clamped = 0 -> snd call = torch_device "cpu")
  /\ (clamped <> 0 -> snd call = torch_device ("cuda:" +:+ str gpu_id)).
Proof.
  intros Hpos. cbv zeta.
  split; [lia|]. split; [lia|]. split; [lia|].
  unfold prepare_device, cuda_name.
  destruct (Z.ltb_spec 0 n_gpu_use) as [H1|H1];
    destruct (Z.eqb_spec (Z.of_nat n_gpu) 0) as [H2|H2]; simpl.
  - rewrite H2. simpl.
    destruct (torch_device "cpu"); simpl;
      repeat split; intros; try reflexivity; lia.
  - destruct (Z.ltb_spec (Z.of_nat n_gpu) n_gpu_use) as [H3|H3].
    + destruct (Z.ltb_spec 0 (Z.of_nat n_gpu)) as [H4|H4]; [|lia].
      replace (Z.min n_gpu_use (Z.of_nat n_gpu)) with (Z.of_nat n_gpu)
        by lia.
      destruct (torch_device _); simpl;
        repeat split; intros; try reflexivity; lia.
    + destruct (Z.ltb_spec 0 n_gpu_use) as [H4|H4]; [|lia].
      destruct (torch_device _); simpl;
        repeat split; intros; try reflexivity; lia.
  - destruct (Z.ltb_spec (Z.of_nat n_gpu) n_gpu_use) as [H3|H3]; [lia|].
    destruct (Z.ltb_spec 0 n_gpu_use) as [H4|H4]; [lia|].
    destruct (torch_device "cpu"); simpl;
      repeat split; intros; try reflexivity; lia.
  - destruct (Z.ltb_spec (Z.of_nat n_gpu) n_gpu_use) as [H3|H3]; [lia|].
    destruct (Z.ltb_spec 0 n_gpu_use) as [H4|H4]; [lia|].
    destruct (torch_device "cpu"); simpl;
      repeat split; intros; try reflexivity; lia.
Qed.

End DeviceFacts.

(** A machine with two GPUs asked for four: the call warns, and runs on
    [cuda:0]. *)
Lemma prepare_device_clamps_and_delegates_witness :
  Device.prepare_device Device.torch_device_model 2 4 (PyInt 0)
  = ([Device.WarnTooMany 4 2; Device.ExecutingOn "cuda:0"], Ok "cuda:0").
Proof.
  pose proof (prepare_device_clamps_and_delegates string
                Device.torch_device_model 2 4 (PyInt 0) ltac:(lia)) as H.
  cbv zeta in H. destruct H as (_ & _ & _ & _ & _ & H6 & _ & H8).
  specialize (H6 ltac:(lia) ltac:(lia)). specialize (H8 ltac:(lia)).
  destruct (Device.prepare_device Device.torch_device_model 2 4 (PyInt 0))
    as [out r].
  simpl in H6, H8. subst r. subst out. reflexivity.
Defined.

(** With the default [gpu_id] on a machine with a GPU, no device comes
    back: the library refuses the string ['cuda:None']. *)
Lemma prepare_device_default_gpu_id_raises :
  Device.prepare_device Device.torch_device_model 1 1 PyNone
  = ([], Raise RuntimeError).
Proof. reflexivity. Qed.

(* ===================================================================== *)
(** ** Array persistence: properties                                      *)
(* ===================================================================== *)

Section NpyFacts.
Import Npy.

Variable array : Type.
Variable np_save : array -> result bytes.
Variable np_load : bytes -> result array.
Variable gzip_compress : string -> Z -> bytes -> bytes.
Variable gzip_abandoned : string -> Z -> array -> bytes.
Variable gzip_decompress : bytes -> result bytes.
Variable open_write : string -> result string.
Variable open_read : string -> result string.

(** C7, amended. For a filename [s] whose path [s] with the suffix
    ".npy.gz" can be opened, for writing and for reading, as one file,
    and an array that [np.save] writes and that [np.load] and gzip read
    back from what was written, saving the array under [s] and loading
    [s] gives the array back; each of the two calls opens exactly the
    path [s] with the suffix, the load changes no file and the save no
    file but that one. *)
Theorem save_load_roundtrip_when_openable (arr : array) (s : string)
        (now : Z) (fs : gmap string bytes) (file : string) (raw : bytes) :
  open_write (s +:+ ".npy.gz") = Ok file ->
  open_read (s +:+ ".npy.gz") = Ok file ->
  np_save arr = Ok raw ->
  gzip_decompress (gzip_compress (s +:+ ".npy.gz") now raw) = Ok raw ->
  np_load raw = Ok arr ->
  let saved :=
    save_to_npy_gz np_save gzip_compress gzip_abandoned open_write
      arr s now fs in
  let fs1 := fst (fst saved) in
  let loaded := load_to_npy_gz np_load gzip_decompress open_read s fs1 in
  snd saved = Ok tt
  /\ snd loaded = Ok arr
  /\ snd (fst saved) = [Wrote (s +:+ ".npy.gz")]
  /\ snd (fst loaded) = [Read (s +:+ ".npy.gz")]
  /\ fst (fst loaded) = fs1
  /\ (forall f, f <> file -> fs1 !! f = fs !! f).
Proof.
  intros Hw Hr Hsave Hgz Hload. cbv zeta.
  unfold save_to_npy_gz, load_to_npy_gz. rewrite Hw, Hsave. simpl.
  rewrite Hr, lookup_insert_eq. simpl.
  rewrite Hgz. simpl. rewrite Hload.
  repeat split.
  intros f Hf. rewrite lookup_insert_ne; [reflexivity | congruence].
Qed.

End NpyFacts.

(** Bytes saved as "weights" in the working directory and loaded again. *)
Lemma save_load_roundtrip_when_openable_witness :
  snd (Npy.example_load "weights"
         (fst (fst (Npy.example_save [Byte.x01; Byte.x02] "weights" 0 ∅))))
  = Ok [Byte.x01; Byte.x02].
Proof.
  pose proof (save_load_roundtrip_when_openable Npy.bytes
                Npy.plain_save Npy.plain_load Npy.stored Npy.stored_nothing
                Npy.unstored Npy.open_in_work Npy.open_in_work
                [Byte.x01; Byte.x02] "weights" 0 ∅
                "/work/weights.npy.gz" [Byte.x01; Byte.x02]
                eq_refl eq_refl eq_refl eq_refl eq_refl) as H.
  cbv zeta in H. destruct H as (_ & H & _). exact H.
Defined.

(** A filename in a directory that does not exist: the save raises,
    nothing is written, and the load that follows raises as well. *)
Lemma save_in_missing_directory_raises :
  Npy.example_save [Byte.x01; Byte.x02] "nodir/weights" 0 ∅
  = (∅, [Npy.Wrote "nodir/weights.npy.gz"], Raise FileNotFoundError)
  /\ snd (Npy.example_load "nodir/weights" ∅) = Raise FileNotFoundError.
Proof. split; reflexivity. Qed.

(* ===================================================================== *)
(** ** The accuracy accumulator: properties                               *)
(* ===================================================================== *)

Section AccuracyFacts.
Import Torch Metric.

(** *** What [update] touches *)

Lemma correct_of_type (s1 s2 : Accuracy) o t bc i :
  _type s1 = _type s2 -> correct_of s1 o t bc i = correct_of s2 o t bc i.
Proof.
  intros E. unfold correct_of, update_first, update_second.
  rewrite E. reflexivity.
Qed.

Lemma batch_counts_type (s1 s2 : Accuracy) (b : batch) :
  _type s1 = _type s2 -> batch_counts s1 b = batch_counts s2 b.
Proof.
  intros E. unfold batch_counts.
  rewrite (correct_of_type s1 s2) by exact E. reflexivity.
Qed.

(** An [update] leaves the configuration and the best accuracy alone
    and adds the batch's counts to the two counters. *)
Lemma update_with_fields (self : Accuracy) (b : batch) :
  let self' := update_with self b in
  _type self' = _type self
  /\ _is_multilabel self' = _is_multilabel self
  /\ best_accuracy self' = best_accuracy self
  /\ external_best_acc self' = external_best_acc self
  /\ _num_correct self' = _num_correct self + fst (batch_counts self b)
  /\ _num_examples self' = _num_examples self + snd (batch_counts self b).
Proof.
  destruct b as [o t bc i]. cbv zeta. simpl output; simpl target.
  unfold update_with, update, batch_counts. simpl.
  destruct (correct_of self o t bc i) as [[[c|] [ba|]]|e]; simpl;
    try destruct (shape0 c); destruct bc; simpl;
    repeat split; try reflexivity; lia.
Qed.

Lemma total_correct_type (s1 s2 : Accuracy) (bs : list batch) :
  _type s1 = _type s2 -> total_correct s1 bs = total_correct s2 bs.
Proof.
  intros E. unfold total_correct. f_equal.
  apply map_ext. intros b. now rewrite (batch_counts_type s1 s2).
Qed.

Lemma total_examples_type (s1 s2 : Accuracy) (bs : list batch) :
  _type s1 = _type s2 -> total_examples s1 bs = total_examples s2 bs.
Proof.
  intros E. unfold total_examples. f_equal.
  apply map_ext. intros b. now rewrite (batch_counts_type s1 s2).
Qed.

Lemma run_updates_fields (bs : list batch) : forall self : Accuracy,
  let self' := run_updates self bs in
  _type self' = _type self
  /\ _is_multilabel self' = _is_multilabel self
  /\ best_accuracy self' = best_accuracy self
  /\ external_best_acc self' = external_best_acc self
  /\ _num_correct self' = _num_correct self + total_correct self bs
  /\ _num_examples self' = _num_examples self + total_examples self bs.
Proof.
  induction bs as [|b bs IH]; intros self; cbv zeta.
  - unfold total_correct, total_examples. simpl. repeat split; lia.
  - simpl run_updates.
    destruct (update_with_fields self b) as (Ht & Hm & Hb & He & Hc & Hn).
    destruct (IH (update_with self b)) as (Ht' & Hm' & Hb' & He' & Hc' & Hn').
    unfold run_updates in *. simpl fold_left.
    rewrite Ht', Hm', Hb', He', Hc', Hn', Hc, Hn.
    rewrite (total_correct_type _ self), (total_examples_type _ self)
      by exact Ht.
    unfold total_correct, total_examples. simpl.
    repeat split; auto; lia.
Qed.

Lemma compute_outcome (self : Accuracy) :
  snd (compute self) =
  if _num_examples self =? 0
  then Raise (Exception
    "Accuracy must have at least one example before it can be computed.")
  else Ok (inject_Z (_num_correct self) / inject_Z (_num_examples self))%Q.
Proof.
  unfold compute. destruct (_num_examples self =? 0); [reflexivity|].
  simpl. destruct (gt _ _); reflexivity.
Qed.

Lemma counters_after_updates (self : Accuracy)
      (bs : list batch) :
  _num_correct (run_updates (reset self) bs) = total_correct self bs
  /\ _num_examples (run_updates (reset self) bs) = total_examples self bs.
Proof.
  destruct (run_updates_fields bs (reset self)) as (_ & _ & _ & _ & Hc & Hn).
  rewrite (total_correct_type _ self) in Hc by reflexivity.
  rewrite (total_examples_type _ self) in Hn by reflexivity.
  simpl _num_correct in Hc. simpl _num_examples in Hn.
  rewrite Z.add_0_l in Hc, Hn. split; assumption.
Qed.

(** C1. Whatever the instance and the updates made since the last
    reset, the counters hold the per-batch counts summed over the
    updates, and a compute that succeeds returns the summed correct
    count divided by the summed example count; it succeeds as soon as
    that example count is not zero. *)
Theorem compute_returns_accumulated_ratio (self : Accuracy)
        (bs : list batch) :
  let final := run_updates (reset self) bs in
  let c := total_correct self bs in
  let n := total_examples self bs in
  _num_correct final = c
  /\ _num_examples final = n
  /\ (n <> 0 -> snd (compute final) = Ok (inject_Z c / inject_Z n)%Q)
  /\ (forall v, snd (compute final) = Ok v ->
                n <> 0 /\ v = (inject_Z c / inject_Z n)%Q).
Proof.
  cbv zeta.
  destruct (counters_after_updates self bs) as [Hc Hn].
  split; [exact Hc|]. split; [exact Hn|].
  rewrite compute_outcome, Hc, Hn.
  destruct (Z.eqb_spec (total_examples self bs) 0) as [E|NE].
  - split; [intros; contradiction | intros v Hv; discriminate].
  - split; [reflexivity|]. intros v Hv. split; [exact NE | congruence].
Qed.

(** C2. With a zero example counter, compute raises and returns
    nothing; the object is left as it was. *)
Theorem compute_raises_without_examples (self : Accuracy) :
  _num_examples self = 0 ->
  compute self =
  (self, Raise (Exception
     "Accuracy must have at least one example before it can be computed.")).
Proof.
  intros E. unfold compute. rewrite E. reflexivity.
Qed.

(** *** When [compute] raises *)

Lemma batch_examples_nonneg (self : Accuracy) (b : batch) :
  0 <= snd (batch_counts self b).
Proof.
  unfold batch_counts.
  destruct (correct_of _ _ _ _ _) as [[[c|] ba]|e]; simpl; try lia.
  unfold shape0. destruct (bshape c); simpl; lia.
Qed.

Lemma total_examples_nonneg (self : Accuracy) (bs : list batch) :
  0 <= total_examples self bs.
Proof.
  unfold total_examples. induction bs as [|b bs IH]; simpl; [lia|].
  pose proof (batch_examples_nonneg self b). lia.
Qed.

Lemma total_examples_zero (self : Accuracy) (bs : list batch) :
  total_examples self bs = 0
  <-> Forall (fun b => snd (batch_counts self b) = 0) bs.
Proof.
  induction bs as [|b bs IH].
  - split; [constructor | reflexivity].
  - pose proof (batch_examples_nonneg self b) as Hb.
    pose proof (total_examples_nonneg self bs) as Hbs.
    change (total_examples self (b :: bs))
      with (snd (batch_counts self b) + total_examples self bs).
    split.
    + intros E. constructor; [lia | apply IH; lia].
    + intros F. inversion F as [|? ? Hb0 F']; subst.
      apply IH in F'. lia.
Qed.

Lemma compute_raises_iff (self : Accuracy) :
  raises (snd (compute self)) <-> _num_examples self = 0.
Proof.
  rewrite compute_outcome. unfold raises.
  destruct (Z.eqb_spec (_num_examples self) 0) as [E|NE].
  - split; [intros _; exact E | intros _; eexists; reflexivity].
  - split; [intros [e He]; discriminate | intros E; contradiction].
Qed.

(** C3, amended. Compute raises exactly when the examples accumulated
    since the last reset number zero, that is when every update since
    then added none: it raises when no update was made, and succeeds
    after an update that added at least one example. *)
Theorem compute_raises_iff_no_examples (self : Accuracy)
        (bs : list batch) :
  let final := run_updates (reset self) bs in
  (raises (snd (compute final))
   <-> Forall (fun b => snd (batch_counts self b) = 0) bs)
  /\ (bs = [] -> raises (snd (compute final)))
  /\ (Exists (fun b => snd (batch_counts self b) <> 0) bs ->
      returns (snd (compute final))).
Proof.
  cbv zeta.
  destruct (counters_after_updates self bs) as [_ Hn].
  assert (Hiff : raises (snd (compute (run_updates (reset self) bs)))
                 <-> Forall (fun b => snd (batch_counts self b) = 0) bs).
  { rewrite compute_raises_iff, Hn. apply total_examples_zero. }
  split; [exact Hiff|]. split.
  - intros ->. apply Hiff. constructor.
  - intros Hex. rewrite compute_outcome, Hn.
    destruct (Z.eqb_spec (total_examples self bs) 0) as [E|NE].
    + apply total_examples_zero in E.
      apply Exists_exists in Hex. destruct Hex as (b & Hin & Hb).
      rewrite Forall_forall in E. specialize (E b).
      exfalso. apply Hb, E, Hin.
    + eexists. reflexivity.
Qed.

(** *** The best accuracy *)

Lemma gt_compare (a b : Q) : gt a b = true <-> (b ?= a)%Q = Lt.
Proof.
  unfold gt. rewrite negb_true_iff, <- Qlt_alt.
  split.
  - intros H. apply Qnot_le_lt. intros Hle.
    apply Qle_bool_iff in Hle. congruence.
  - intros H. destruct (Qle_bool a b) eqn:E; [|reflexivity].
    apply Qle_bool_iff in E. exfalso. exact (Qlt_not_le _ _ H E).
Qed.

Lemma best_after_compute (self : Accuracy) (acc : Q) :
  (if gt acc (best_accuracy self) then acc else best_accuracy self)
  = Qmax (best_accuracy self) acc.
Proof.
  unfold Qmax, GenericMinMax.gmax.
  destruct (gt acc (best_accuracy self)) eqn:E.
  - apply gt_compare in E. rewrite E. reflexivity.
  - destruct (best_accuracy self ?= acc)%Q eqn:C; try reflexivity.
    apply gt_compare in C. congruence.
Qed.

(** C5. The best accuracy is a running maximum that only compute
    moves: a compute returning [acc] leaves the larger of the previous
    best and [acc], a compute that raises leaves the object as it was,
    reset and update keep the best accuracy and the configured mode,
    and [get_best] reads the best accuracy. *)
Theorem best_accuracy_running_max (self : Accuracy) :
  (forall self' acc, compute self = (self', Ok acc) ->
     best_accuracy self' = Qmax (best_accuracy self) acc
     /\ _type self' = _type self
     /\ _is_multilabel self' = _is_multilabel self)
  /\ (forall self' e, compute self = (self', Raise e) -> self' = self)
  /\ (best_accuracy (reset self) = best_accuracy self
      /\ _type (reset self) = _type self
      /\ _is_multilabel (reset self) = _is_multilabel self)
  /\ (forall o t bc i,
        best_accuracy (fst (update self o t bc i)) = best_accuracy self
        /\ _type (fst (update self o t bc i)) = _type self
        /\ _is_multilabel (fst (update self o t bc i))
           = _is_multilabel self)
  /\ get_best self = best_accuracy self.
Proof.
  split; [|split; [|split; [|split]]].
  - intros self' acc. unfold compute.
    destruct (_num_examples self =? 0); [discriminate|].
    intros H. injection H as <- <-.
    rewrite <- best_after_compute.
    destruct (gt (inject_Z (_num_correct self) / inject_Z (_num_examples self))
                 (best_accuracy self)) eqn:E; simpl; rewrite E; auto.
  - intros self' e. unfold compute.
    destruct (_num_examples self =? 0); [|discriminate].
    intros H. injection H as <- _. reflexivity.
  - repeat split.
  - intros o t bc i.
    destruct (update_with_fields self (mk_batch o t bc i))
      as (Ht & Hm & Hb & _).
    unfold update_with in *. simpl in *. auto.
  - reflexivity.
Qed.

(** *** Unknown modes *)

Lemma is_str_false (v : pyval) (lit : string) :
  v <> PyStr lit -> is_str v lit = false.
Proof.
  intros H. unfold is_str. destruct v as [|z|s]; simpl; try reflexivity.
  destruct (String.eqb_spec s lit) as [->|]; [contradiction | reflexivity].
Qed.

(** C9. Built with a type that is none of "binary", "multiclass",
    "multilabel" and "semisupervised" (the default [None] among them),
    every update raises on the unassigned local [correct] and leaves
    the object as it was, so that no sequence of updates accumulates
    anything. *)
Theorem update_raises_for_unknown_type (self : Accuracy) :
  _type self <> PyStr "binary" ->
  _type self <> PyStr "multiclass" ->
  _type self <> PyStr "multilabel" ->
  _type self <> PyStr "semisupervised" ->
  (forall o t bc i,
     update self o t bc i = (self, Raise (UnboundLocalError "correct")))
  /\ (forall bs, run_updates self bs = self).
Proof.
  intros H1 H2 H3 H4.
  assert (Hone : forall o t bc i,
    update self o t bc i = (self, Raise (UnboundLocalError "correct"))).
  { intros o t bc i.
    unfold update, correct_of, update_first, update_second.
    rewrite !is_str_false by assumption. reflexivity. }
  split; [exact Hone|].
  induction bs as [|b bs IH]; [reflexivity|].
  unfold run_updates in *. simpl. unfold update_with at 2.
  rewrite Hone. exact IH.
Qed.

(** *** The counters against each other *)

Lemma count_true_le (l : list bool) : (count_true l <= length l)%nat.
Proof. induction l as [|[] l IH]; simpl; lia. Qed.

Lemma length_tabulate {A} (sh : list nat) (f : list nat -> A) :
  length (tabulate sh f) = numel sh.
Proof. unfold tabulate. now rewrite length_map, length_seq. Qed.

Lemma eq_shape (a b : tensor) (c : btensor) :
  eq a b = Ok c ->
  broadcast_shapes (shape a) (shape b) = Ok (bshape c) /\ bwf c.
Proof.
  unfold eq. destruct (broadcast_shapes (shape a) (shape b)) as [sh|e];
    simpl; [|discriminate].
  intros H. injection H as <-. split; [reflexivity|].
  unfold bwf. simpl. apply length_tabulate.
Qed.

Lemma sum_item_le_numel (c : btensor) :
  bwf c -> sum_item c <= Z.of_nat (numel (bshape c)).
Proof.
  unfold bwf, sum_item. intros <-.
  pose proof (count_true_le (bdata c)). lia.
Qed.

Lemma broadcast_flat (m n : nat) (sh : list nat) :
  broadcast_shapes [m] [n] = Ok sh -> exists k, sh = [k].
Proof.
  unfold broadcast_shapes. simpl.
  destruct (Nat.eqb m n); simpl;
    [|destruct (Nat.eqb m 1); simpl; [|destruct (Nat.eqb n 1); simpl]];
    intros H; try discriminate; injection H as <-; eexists; reflexivity.
Qed.

Lemma broadcast_rows (m n c c' : nat) (sh : list nat) :
  broadcast_shapes [m; c] [n; c'] = Ok sh -> exists k d, sh = [k; d].
Proof.
  unfold broadcast_shapes. simpl.
  destruct (Nat.eqb m n); simpl;
    [|destruct (Nat.eqb m 1); simpl; [|destruct (Nat.eqb n 1); simpl]];
    (destruct (Nat.eqb c c'); simpl;
     [|destruct (Nat.eqb c 1); simpl; [|destruct (Nat.eqb c' 1); simpl]]);
    intros H; try discriminate; injection H as <-;
    eexists; eexists; reflexivity.
Qed.

Lemma broadcast_column (n : nat) (sh : list nat) :
  broadcast_shapes [n; 1%nat] [n; 1%nat] = Ok sh -> sh = [n; 1%nat].
Proof.
  unfold broadcast_shapes. simpl. rewrite Nat.eqb_refl. simpl.
  intros H. injection H as <-. reflexivity.
Qed.

(** The bound for a comparison result that has one entry per example. *)
Lemma counts_le_flat (c : btensor) (k : nat) :
  bwf c -> bshape c = [k] ->
  sum_item c <= match shape0 c with Ok n => n | Raise _ => 0 end.
Proof.
  intros Hwf Hsh. pose proof (sum_item_le_numel c Hwf) as H.
  unfold shape0. rewrite Hsh in *. simpl in *. lia.
Qed.

Lemma counts_le_column (c : btensor) (k : nat) :
  bwf c -> bshape c = [k; 1%nat] ->
  sum_item c <= match shape0 c with Ok n => n | Raise _ => 0 end.
Proof.
  intros Hwf Hsh. pose proof (sum_item_le_numel c Hwf) as H.
  unfold shape0. rewrite Hsh in *. simpl in *. lia.
Qed.

Lemma all_last_rows (e : btensor) (k d : nat) :
  bshape e = [k; d] -> bwf (all_last e) /\ bshape (all_last e) = [k].
Proof.
  intros Hsh. unfold all_last. rewrite Hsh. simpl.
  split; [|reflexivity].
  unfold bwf. simpl. now rewrite length_map, length_seq.
Qed.

Lemma reshape_rows_shape (t t' : tensor) (c : nat) :
  reshape_rows t c = Ok t' -> exists m, shape t' = [m; c].
Proof.
  unfold reshape_rows. destruct (Nat.eqb c 0); [discriminate|].
  destruct (Nat.eqb _ 0); [|discriminate].
  intros H. injection H as <-. eexists. reflexivity.
Qed.

(** In binary mode every prediction is an example: the comparison is
    made on flattened tensors. *)
Lemma binary_counts_bounded (self : Accuracy) (b : batch) :
  _type self = PyStr "binary" ->
  0 <= fst (batch_counts self b) <= snd (batch_counts self b).
Proof.
  intros Hty. unfold batch_counts, correct_of, update_first, update_second.
  rewrite Hty. simpl.
  destruct (eq _ _) as [c|e] eqn:E; simpl; [|lia].
  apply eq_shape in E. destruct E as [Hb Hwf].
  apply broadcast_flat in Hb. destruct Hb as [k Hk].
  split; [unfold sum_item; lia | eapply counts_le_flat; eassumption].
Qed.

(** In multilabel mode the trailing dimensions are folded into the
    examples before the rows are compared. *)
Lemma multilabel_counts_bounded (self : Accuracy) (b : batch) :
  _type self = PyStr "multilabel" ->
  0 <= fst (batch_counts self b) <= snd (batch_counts self b).
Proof.
  intros Hty. unfold batch_counts, correct_of, update_first, update_second.
  rewrite Hty. simpl.
  destruct (size1 (output b)) as [nc|e]; simpl; [|lia].
  destruct (transpose (output b) _ _) as [yt|e]; simpl; [|lia].
  destruct (reshape_rows yt nc) as [y'|e] eqn:Ey; simpl; [|lia].
  destruct (transpose (target b) _ _) as [tt'|e]; simpl; [|lia].
  destruct (reshape_rows tt' nc) as [t'|e] eqn:Et; simpl; [|lia].
  destruct (eq _ _) as [c|e] eqn:E; simpl; [|lia].
  apply eq_shape in E. destruct E as [Hb Hwf].
  apply reshape_rows_shape in Ey, Et.
  destruct Ey as [m1 Hy], Et as [m2 Ht].
  unfold to in Hb. rewrite Hy, Ht in Hb.
  apply broadcast_rows in Hb. destruct Hb as (k & d & Hk).
  destruct (all_last_rows c k d Hk) as [Hwf' Hsh'].
  split; [unfold sum_item; lia | eapply counts_le_flat; eassumption].
Qed.

Lemma argmax_dim1_shape (t p : tensor) (n c : nat) :
  shape t = [n; c] -> argmax_dim1 t = Ok p -> shape p = [n; 1%nat].
Proof.
  intros Hsh. unfold argmax_dim1. rewrite Hsh.
  destruct (Nat.eqb c 0); [discriminate|].
  intros H. injection H as <-. reflexivity.
Qed.

(** In multiclass mode the bound holds for predictions of shape
    (N, C), one row per example. *)
Lemma multiclass_counts_bounded (self : Accuracy) (b : batch) (n c : nat) :
  _type self = PyStr "multiclass" ->
  shape (output b) = [n; c] ->
  0 <= fst (batch_counts self b) <= snd (batch_counts self b).
Proof.
  intros Hty Hsh.
  unfold batch_counts, correct_of, update_first, update_second.
  rewrite Hty. simpl.
  destruct (argmax_dim1 (output b)) as [p|e] eqn:Ep; simpl; [|lia].
  apply (argmax_dim1_shape _ _ n c Hsh) in Ep.
  unfold view_as. destruct (Nat.eqb _ _); simpl; [|lia].
  destruct (eq _ _) as [cr|e] eqn:E; simpl; [|lia].
  apply eq_shape in E. destruct E as [Hb Hwf]. simpl in Hb.
  rewrite Ep in Hb. apply broadcast_column in Hb.
  assert (Hle : sum_item cr
                <= match shape0 cr with Ok n => n | Raise _ => 0 end)
    by (eapply counts_le_column; eassumption).
  assert (H0 : 0 <= sum_item cr) by (unfold sum_item; lia).
  destruct (shape0 cr) as [bd|e] eqn:Es;
    destruct (batch_compute b); simpl; rewrite ?Es; simpl;
    try destruct (truediv _ _); simpl; rewrite ?Es; lia.
Qed.

Lemma compute_keeps_counters (self : Accuracy) :
  _type (fst (compute self)) = _type self
  /\ _num_correct (fst (compute self)) = _num_correct self
  /\ _num_examples (fst (compute self)) = _num_examples self.
Proof.
  unfold compute. destruct (_num_examples self =? 0); simpl; [auto|].
  destruct (gt _ _); simpl; auto.
Qed.

(** In the two modes that flatten their input, the counters stay
    ordered along every sequence of calls. *)
Lemma counters_ordered_when_flattened (cs : list call) :
  forall self : Accuracy,
  _type self = PyStr "binary" \/ _type self = PyStr "multilabel" ->
  counters_ordered self ->
  counters_ordered (fold_left step cs self).
Proof.
  induction cs as [|c cs IH]; intros self Hty Hinv; [exact Hinv|].
  simpl. apply IH.
  - destruct c as [|b|]; simpl.
    + exact Hty.
    + destruct (update_with_fields self b) as (-> & _). exact Hty.
    + destruct (compute_keeps_counters self) as (-> & _). exact Hty.
  - unfold counters_ordered in *. destruct c as [|b|]; simpl.
    + lia.
    + destruct (update_with_fields self b) as (_ & _ & _ & _ & -> & ->).
      assert (0 <= fst (batch_counts self b) <= snd (batch_counts self b))
        by (destruct Hty; [apply binary_counts_bounded
                          | apply multilabel_counts_bounded]; assumption).
      lia.
    + destruct (compute_keeps_counters self) as (_ & -> & ->). exact Hinv.
Qed.

(** With ordered counters a computed accuracy lies between 0 and 1. *)
Lemma compute_in_unit_interval (self : Accuracy) (v : Q) :
  counters_ordered self ->
  snd (compute self) = Ok v -> (0 <= v <= 1)%Q.
Proof.
  unfold counters_ordered. intros Hinv. rewrite compute_outcome.
  destruct (Z.eqb_spec (_num_examples self) 0) as [E|NE]; [discriminate|].
  intros H. injection H as <-.
  assert (Hpos : (0 < inject_Z (_num_examples self))%Q).
  { rewrite <- (Zlt_Qlt 0). lia. }
  split.
  - apply Qle_shift_div_l; [exact Hpos|].
    rewrite Qmult_0_l. rewrite <- (Zle_Qle 0). lia.
  - apply Qle_shift_div_r; [exact Hpos|].
    rewrite Qmult_1_l. rewrite <- Zle_Qle. lia.
Qed.

(** C8, on the failing input. In multiclass mode an update on
    predictions of shape (1, 2, 2) succeeds, counts two correct
    predictions against one example, and the compute that follows
    returns 2, outside the interval from 0 to 1. *)
Theorem accuracy_exceeds_one_on_pixel_batch :
  let self := init false (PyStr "multiclass") in
  let final := run_updates (reset self) [pixel_batch] in
  snd (update (reset self) (output pixel_batch) (target pixel_batch)
         (batch_compute pixel_batch) (idx pixel_batch)) = Ok None
  /\ _num_correct final = 2
  /\ _num_examples final = 1
  /\ ~ (_num_correct final <= _num_examples final)
  /\ snd (compute final) = Ok (2 # 1)%Q
  /\ ~ (2 # 1 <= 1)%Q.
Proof.
  cbv zeta. repeat split; try reflexivity.
  - vm_compute. intros H. apply H. reflexivity.
  - intros H. vm_compute in H. apply H. reflexivity.
Qed.

End AccuracyFacts.

(** A freshly built accumulator cannot be computed. *)
Lemma compute_raises_without_examples_witness :
  Metric._num_examples (Metric.init false PyNone) = 0
  /\ raises (snd (Metric.compute (Metric.init false PyNone))).
Proof.
  split; [reflexivity|].
  rewrite (compute_raises_without_examples (Metric.init false PyNone) eq_refl).
  eexists. reflexivity.
Defined.

(** After an update on a batch without examples, which succeeds, compute
    still raises. *)
Lemma compute_raises_after_empty_update :
  snd (Metric.update (Metric.reset (Metric.init false (PyStr "binary")))
         (Metric.output Metric.empty_batch) (Metric.target Metric.empty_batch)
         false Torch.IdxNone) = Ok None
  /\ snd (Metric.compute
            (Metric.run_updates
               (Metric.reset (Metric.init false (PyStr "binary")))
               [Metric.empty_batch]))
     = Raise (Exception
         "Accuracy must have at least one example before it can be computed.").
Proof. split; reflexivity. Qed.

(** The default configuration never accumulates. *)
Lemma update_raises_for_unknown_type_witness :
  Metric.update (Metric.init false PyNone)
    (Metric.output Metric.pixel_batch) (Metric.target Metric.pixel_batch)
    false Torch.IdxNone
  = (Metric.init false PyNone, Raise (UnboundLocalError "correct")).
Proof.
  apply (update_raises_for_unknown_type (Metric.init false PyNone));
    discriminate.
Defined.

(* ===================================================================== *)
(** ** Markdown tables: properties                                        *)
(* ===================================================================== *)

Section MarkdownFacts.
Import Markdown.

(** *** Strings *)

Lemma append_empty_l (a : string) : "" +:+ a = a.
Proof. reflexivity. Qed.

Lemma append_cons (x : ascii) (a b : string) :
  String x a +:+ b = String x (a +:+ b).
Proof. reflexivity. Qed.

Lemma append_assoc (a b c : string) : (a +:+ b) +:+ c = a +:+ (b +:+ c).
Proof.
  induction a as [|x a IH]; [reflexivity|].
  now rewrite !append_cons, IH.
Qed.

Lemma append_empty_r (a : string) : a +:+ "" = a.
Proof.
  induction a as [|x a IH]; [reflexivity|].
  now rewrite append_cons, IH.
Qed.

Lemma row_fold (item : pydict) : forall acc : string,
  fold_left (fun row kv => row +:+ (("| " +:+ str (snd kv)) +:+ " "))
            item acc
  = acc +:+ concat_strings (map value_cell (values item)).
Proof.
  induction item as [|[k v] item IH]; intros acc; simpl.
  - now rewrite append_empty_r.
  - rewrite IH. unfold concat_strings, value_cell. simpl fold_right.
    now rewrite !append_assoc.
Qed.

Lemma markdown_table_spec (item : pydict) :
  markdown_table item = table_of_chunk item.
Proof.
  unfold markdown_table, table_of_chunk, header_row, separator_row,
    value_row.
  rewrite row_fold. unfold keys. rewrite length_map.
  now rewrite !append_empty_l, !append_assoc.
Qed.

(** *** Dictionaries *)

Lemma pyval_eqb_eq (a b : pyval) : pyval_eqb a b = true <-> a = b.
Proof.
  destruct a as [|x|s], b as [|y|t]; simpl; split; intros H;
    try reflexivity; try discriminate.
  - apply Z.eqb_eq in H. now subst.
  - injection H as ->. apply Z.eqb_refl.
  - apply String.eqb_eq in H. now subst.
  - injection H as ->. apply String.eqb_refl.
Qed.

Lemma getitem_entry (d : pydict) (k v : pyval) :
  List.NoDup (keys d) -> In (k, v) d -> getitem d k = Ok v.
Proof.
  induction d as [|[k' v'] d IH]; simpl; intros Hnd Hin; [contradiction|].
  apply NoDup_cons_iff in Hnd. destruct Hnd as [Hk Hnd].
  destruct Hin as [E|Hin].
  - injection E as -> ->.
    destruct (pyval_eqb k k) eqn:Ek; [reflexivity|].
    assert (pyval_eqb k k = true) by now apply pyval_eqb_eq.
    congruence.
  - destruct (pyval_eqb k' k) eqn:Ek.
    + apply pyval_eqb_eq in Ek. subst k'. exfalso. apply Hk.
      unfold keys. apply in_map_iff. exists (k, v). auto.
    + apply IH; assumption.
Qed.

Lemma setitem_fresh (acc : pydict) (k v : pyval) :
  ~ In k (keys acc) -> setitem acc k v = acc ++ [(k, v)].
Proof.
  induction acc as [|[k' v'] acc IH]; simpl; intros Hk; [reflexivity|].
  destruct (pyval_eqb k' k) eqn:Ek.
  - apply pyval_eqb_eq in Ek. subst. exfalso. apply Hk. now left.
  - rewrite IH; [reflexivity|]. intros Hin. apply Hk. now right.
Qed.

(** The comprehension over the keys of a run of entries of the input
    rebuilds that run. *)
Lemma comprehension_entries (input : pydict) (c : pydict) :
  forall acc : pydict,
  (forall k v, In (k, v) c -> getitem input k = Ok v) ->
  List.NoDup (keys acc ++ keys c) ->
  comprehension input (keys c) acc = Ok (acc ++ c).
Proof.
  induction c as [|[k v] c IH]; intros acc Hget Hnd; simpl.
  - now rewrite app_nil_r.
  - rewrite (Hget k v) by now left. simpl.
    assert (Hfresh : ~ In k (keys acc)).
    { intros Hin. simpl in Hnd. apply NoDup_remove_2 in Hnd.
      apply Hnd. apply in_or_app. now left. }
    rewrite setitem_fresh by exact Hfresh.
    rewrite IH.
    + now rewrite <- app_assoc.
    + intros k0 v0 Hin. apply Hget. now right.
    + unfold keys in *. rewrite map_app. simpl.
      rewrite <- app_assoc. exact Hnd.
Qed.

Lemma in_chunk_at (d : pydict) (n i : nat) (kv : pyval * pyval) :
  In kv (chunk_at n d i) -> In kv d.
Proof.
  unfold chunk_at. intros H.
  rewrite <- (firstn_skipn (i * n) d). apply in_or_app. right.
  rewrite <- (firstn_skipn n (skipn (i * n) d)). apply in_or_app.
  now left.
Qed.

Lemma keys_chunk_at (d : pydict) (n i : nat) :
  keys (chunk_at n d i) = firstn n (skipn (i * n) (keys d)).
Proof. unfold keys, chunk_at. now rewrite skipn_map, firstn_map. Qed.

Lemma nodup_chunk_at (d : pydict) (n i : nat) :
  List.NoDup (keys d) -> List.NoDup (keys (chunk_at n d i)).
Proof.
  intros Hnd. rewrite keys_chunk_at.
  rewrite <- (firstn_skipn (i * n) (keys d)) in Hnd.
  apply NoDup_app_remove_l in Hnd.
  rewrite <- (firstn_skipn n (skipn (i * n) (keys d))) in Hnd.
  now apply NoDup_app_remove_r in Hnd.
Qed.

(** The generator yields the consecutive runs of [size] entries, one
    per element of the range. *)
Lemma get_chunk_loop_chunks (d : pydict) (size : nat) (rng : list nat) :
  List.NoDup (keys d) ->
  forall j : nat,
  get_chunk_loop d size (skipn (j * size) (keys d)) rng
  = Ok (map (chunk_at size d) (seq j (length rng))).
Proof.
  intros Hnd. induction rng as [|r rng IH]; intros j; simpl; [reflexivity|].
  rewrite <- keys_chunk_at.
  rewrite (comprehension_entries d (chunk_at size d j) []).
  - simpl. rewrite skipn_skipn.
    replace (size + j * size)%nat with (S j * size)%nat by lia.
    rewrite IH. reflexivity.
  - intros k v Hin. apply getitem_entry; [exact Hnd|].
    eapply in_chunk_at. exact Hin.
  - simpl. now apply nodup_chunk_at.
Qed.

Lemma get_chunk_chunks (d : pydict) :
  List.NoDup (keys d) -> get_chunk d 10 = Ok (chunks 10 d).
Proof.
  intros Hnd. unfold get_chunk, chunks.
  change (keys d) with (skipn (0 * 10) (keys d)).
  rewrite get_chunk_loop_chunks by exact Hnd.
  unfold py_range. rewrite length_map, length_seq, Nat.sub_0_r.
  reflexivity.
Qed.

(** *** Chunks *)

Lemma firstn_add {A} (n k : nat) : forall l : list A,
  firstn (n + k) l = firstn n l ++ firstn k (skipn n l).
Proof.
  induction n as [|n IH]; intros l; [reflexivity|].
  destruct l as [|x l]; simpl.
  - now rewrite firstn_nil.
  - now rewrite IH.
Qed.

Lemma concat_chunk_run {A} (n : nat) (l : list A) (m : nat) :
  forall j : nat,
  concat (map (chunk_at n l) (seq j m)) = firstn (m * n) (skipn (j * n) l).
Proof.
  induction m as [|m IH]; intros j; simpl; [reflexivity|].
  rewrite IH, firstn_add. unfold chunk_at. f_equal.
  rewrite skipn_skipn. do 2 f_equal; lia.
Qed.

Lemma ceil_ten (n : nat) :
  let m := ((n + 9) / 10)%nat in
  (n <= m * 10 /\ m * 10 < n + 10)%nat.
Proof.
  cbv zeta.
  pose proof (Nat.div_mod_eq (n + 9) 10).
  pose proof (Nat.mod_upper_bound (n + 9) 10). lia.
Qed.

Lemma length_chunks_ten {A} (l : list A) :
  length (chunks 10 l) = ((length l + 9) / 10)%nat.
Proof. unfold chunks. now rewrite length_map, length_seq. Qed.

Lemma concat_chunks_ten {A} (l : list A) : concat (chunks 10 l) = l.
Proof.
  unfold chunks. rewrite concat_chunk_run. simpl skipn.
  apply firstn_all2. simpl Nat.sub.
  destruct (ceil_ten (length l)). lia.
Qed.

Lemma length_chunk_at {A} (n : nat) (l : list A) (i : nat) :
  length (chunk_at n l i) = Nat.min n (length l - i * n).
Proof. unfold chunk_at. now rewrite length_firstn, length_skipn. Qed.

Lemma nth_chunks_ten {A} (l : list A) (i : nat) :
  (i < length (chunks 10 l))%nat ->
  nth i (chunks 10 l) [] = chunk_at 10 l i.
Proof.
  intros Hi. rewrite length_chunks_ten in Hi. unfold chunks.
  rewrite (nth_indep _ [] (chunk_at 10 l 0%nat))
    by now rewrite length_map, length_seq.
  rewrite map_nth. f_equal. simpl Nat.sub. now rewrite seq_nth.
Qed.

(** Every chunk holds between one and ten entries, and every chunk
    before the last holds ten. *)
Lemma chunks_ten_sizes {A} (l : list A) (i : nat) :
  (i < length (chunks 10 l))%nat ->
  (1 <= length (nth i (chunks 10 l) []) <= 10)%nat
  /\ ((S i < length (chunks 10 l))%nat ->
      length (nth i (chunks 10 l) []) = 10%nat).
Proof.
  intros Hi. rewrite nth_chunks_ten by exact Hi.
  rewrite length_chunks_ten in *. rewrite length_chunk_at.
  destruct (ceil_ten (length l)). lia.
Qed.

(** C10. Whatever [vis_size] is, the entries of the dict are cut into
    consecutive chunks of ten, the last one holding what is left, and
    the result holds one table per chunk, in order: a header row of
    the chunk's keys, a separator row and one row of its values. *)
Theorem dict_to_md_tables_of_ten (d : pydict) (vis_size : pyval) :
  well_formed d ->
  dict_to_md d vis_size = Ok (map table_of_chunk (chunks 10 d))
  /\ (forall other : pyval, dict_to_md d other = dict_to_md d vis_size)
  /\ concat (chunks 10 d) = d
  /\ (forall i, (i < length (chunks 10 d))%nat ->
        (1 <= length (nth i (chunks 10 d) []) <= 10)%nat)
  /\ (forall i, (S i < length (chunks 10 d))%nat ->
        length (nth i (chunks 10 d) []) = 10%nat).
Proof.
  intros Hwf. unfold well_formed in Hwf.
  split; [|split; [|split; [|split]]].
  - unfold dict_to_md. rewrite get_chunk_chunks by exact Hwf. simpl.
    f_equal. apply map_ext. exact markdown_table_spec.
  - intros other. reflexivity.
  - apply concat_chunks_ten.
  - intros i Hi. now apply chunks_ten_sizes.
  - intros i Hi. apply chunks_ten_sizes; [lia | exact Hi].
Qed.

End MarkdownFacts.

(** Three settings make one table, whatever the size asked for. *)
Lemma dict_to_md_tables_of_ten_witness :
  Markdown.well_formed Markdown.sample_dict
  /\ Markdown.dict_to_md Markdown.sample_dict (PyInt 2)
     = Ok [Markdown.table_of_chunk Markdown.sample_dict].
Proof.
  assert (Hwf : Markdown.well_formed Markdown.sample_dict).
  { unfold Markdown.well_formed. simpl.
    repeat constructor; simpl; intuition discriminate. }
  split; [exact Hwf|].
  destruct (dict_to_md_tables_of_ten Markdown.sample_dict (PyInt 2) Hwf)
    as [H _].
  exact H.
Defined.

(* ===================================================================== *)
(** ** Experiment descriptions                                            *)
(* ===================================================================== *)

Section DescriptionFacts.
Import Markdown.

Lemma string_app_cons (x : ascii) (a b : string) :
  String x a +:+ b = String x (a +:+ b).
Proof. reflexivity. Qed.

Lemma string_app_assoc (a b c : string) :
  (a +:+ b) +:+ c = a +:+ (b +:+ c).
Proof.
  induction a as [|x a IH]; [reflexivity|].
  now rewrite !string_app_cons, IH.
Qed.

Lemma replace_char_app (old : ascii) (new a b : string) :
  replace_char old new (a +:+ b)
  = replace_char old new a +:+ replace_char old new b.
Proof.
  induction a as [|x a IH]; [reflexivity|].
  rewrite string_app_cons. simpl replace_char.
  destruct (Ascii.eqb x old).
  - now rewrite IH, string_app_assoc.
  - now rewrite IH, string_app_cons.
Qed.

Lemma description_md_app (a b : string) :
  description_md (a +:+ b) = description_md a +:+ description_md b.
Proof. unfold description_md. now rewrite !replace_char_app. Qed.

Lemma description_md_char (c : ascii) :
  description_md (String c EmptyString) = escape_char c.
Proof.
  unfold description_md, escape_char. simpl replace_char at 4.
  destruct (Ascii.eqb c newline_char) eqn:E1; [reflexivity|].
  simpl replace_char at 3.
  destruct (Ascii.eqb c " ") eqn:E2; [reflexivity|].
  simpl replace_char at 2.
  destruct (Ascii.eqb c "[") eqn:E3; [reflexivity|].
  simpl replace_char.
  destruct (Ascii.eqb c "]") eqn:E4; reflexivity.
Qed.

Lemma description_md_tokens (d : string) :
  description_md d
  = concat_strings (map escape_char (list_ascii_of_string d)).
Proof.
  induction d as [|c d IH]; [reflexivity|].
  change (String c d) with (String c EmptyString +:+ d).
  rewrite description_md_app, description_md_char, IH. reflexivity.
Qed.

(** The four replacements made one after the other act as one pass that
    rewrites each character on its own: a line break becomes "<br>", a
    space "&nbsp;", a bracket is given a backslash, and any other
    character is kept. No replacement touches the text that an earlier
    one put in. *)
Theorem get_markdown_description_single_pass (description_json : string)
        (exp_id : pyval) :
  get_markdown_description description_json exp_id
  = ("# Experiment " +:+ str exp_id +:+ newline +:+ newline)
    +:+ concat_strings
          (map escape_char (list_ascii_of_string description_json)).
Proof.
  unfold get_markdown_description. f_equal. apply description_md_tokens.
Qed.

Lemma list_ascii_app (a b : string) :
  list_ascii_of_string (a +:+ b)
  = list_ascii_of_string a ++ list_ascii_of_string b.
Proof.
  induction a as [|x a IH]; [reflexivity|].
  rewrite string_app_cons. simpl. now rewrite IH.
Qed.

Lemma escape_char_plain (c : ascii) :
  List.Forall (fun x => x <> newline_char /\ x <> " "%char)
              (list_ascii_of_string (escape_char c)).
Proof.
  unfold escape_char.
  destruct (Ascii.eqb_spec c newline_char) as [->|N1];
    [repeat constructor; discriminate|].
  destruct (Ascii.eqb_spec c " ") as [->|N2];
    [repeat constructor; discriminate|].
  destruct (Ascii.eqb_spec c "[") as [->|N3];
    [repeat constructor; discriminate|].
  destruct (Ascii.eqb_spec c "]") as [->|N4];
    [repeat constructor; discriminate|].
  repeat constructor; assumption.
Qed.

(** The description part of the result holds neither a line break nor a
    space, whatever the description: it stays on one markdown line and
    is not reflowed. *)
Theorem description_md_one_line (description_json : string) :
  List.Forall (fun x => x <> newline_char /\ x <> " "%char)
              (list_ascii_of_string (description_md description_json)).
Proof.
  rewrite description_md_tokens.
  induction (list_ascii_of_string description_json) as [|c l IH];
    [constructor|].
  simpl map. unfold concat_strings. simpl fold_right.
  rewrite list_ascii_app. apply List.Forall_app. split.
  - apply escape_char_plain.
  - exact IH.
Qed.

Lemma brackets_escaped_token (c : ascii) (rest : string) :
  (forall p, brackets_escaped_from p rest = true) ->
  forall p, brackets_escaped_from p (escape_char c +:+ rest) = true.
Proof.
  intros Hrest p. unfold escape_char.
  destruct (Ascii.eqb_spec c newline_char) as [->|N1];
    [simpl; apply Hrest|].
  destruct (Ascii.eqb_spec c " ") as [->|N2]; [simpl; apply Hrest|].
  destruct (Ascii.eqb c "[") eqn:E3; [simpl; apply Hrest|].
  destruct (Ascii.eqb c "]") eqn:E4; [simpl; apply Hrest|].
  rewrite string_app_cons. simpl brackets_escaped_from.
  unfold is_bracket. rewrite E3, E4. simpl. apply Hrest.
Qed.

(** In the description part every bracket comes right after a backslash,
    so that markdown never reads one as the start of a link. *)
Theorem description_md_escapes_brackets (description_json : string)
        (prev : ascii) :
  brackets_escaped_from prev (description_md description_json) = true.
Proof.
  rewrite description_md_tokens. revert prev.
  induction (list_ascii_of_string description_json) as [|c l IH];
    intros prev; [reflexivity|].
  simpl map. unfold concat_strings. simpl fold_right.
  apply brackets_escaped_token. exact IH.
Qed.

End DescriptionFacts.

(* ===================================================================== *)
(** ** Device selection: requests of any sign and what is printed         *)
(* ===================================================================== *)

Section DeviceMoreFacts.
Import Device.

Variable device : Type.
Variable torch_device : string -> result device.
Variable n_gpu : nat.

(** Whatever integer is requested, a CUDA device is asked for exactly
    when the request is positive and the machine has a GPU; a request of
    zero or less always gives the CPU, GPUs or not. *)
Theorem prepare_device_any_request (n_gpu_use : Z) (gpu_id : pyval) :
  snd (prepare_device torch_device n_gpu n_gpu_use gpu_id)
  = torch_device (if (0 <? n_gpu_use) && (0 <? Z.of_nat n_gpu)
                  then "cuda:" +:+ str gpu_id else "cpu").
Proof.
  rewrite prepare_device_outcome, effective_n_gpu_use_min.
  destruct (Z.ltb_spec 0 (Z.min n_gpu_use (Z.of_nat n_gpu))) as [H|H];
    destruct (Z.ltb_spec 0 n_gpu_use) as [H1|H1];
    destruct (Z.ltb_spec 0 (Z.of_nat n_gpu)) as [H2|H2];
    simpl; try reflexivity; lia.
Qed.

(** A call prints at most one warning: that there is no GPU when a
    positive count is requested on a machine without one, or else that
    too many are requested, with the requested and the available count,
    when the request exceeds the GPUs present. The line naming the
    device comes last, and only when [torch.device] returned one. *)
Theorem prepare_device_prints (n_gpu_use : Z) (gpu_id : pyval) :
  let call := prepare_device torch_device n_gpu n_gpu_use gpu_id in
  fst call
  = warnings_of device n_gpu n_gpu_use
    ++ match snd call with
       | Ok d => [ExecutingOn d]
       | Raise _ => []
       end
  /\ (length (warnings_of device n_gpu n_gpu_use) <= 1)%nat.
Proof.
  cbv zeta. unfold prepare_device, warnings_of, cuda_name.
  destruct (Z.ltb_spec 0 n_gpu_use) as [H1|H1];
    destruct (Z.eqb_spec (Z.of_nat n_gpu) 0) as [H2|H2]; simpl.
  - rewrite H2. simpl. destruct (torch_device "cpu"); simpl; auto.
  - destruct (Z.of_nat n_gpu <? n_gpu_use);
      match goal with
      | |- context [torch_device ?s] => destruct (torch_device s)
      end; simpl; rewrite ?app_nil_r; auto.
  - destruct (Z.of_nat n_gpu <? n_gpu_use);
      match goal with
      | |- context [torch_device ?s] => destruct (torch_device s)
      end; simpl; rewrite ?app_nil_r; auto.
  - destruct (Z.of_nat n_gpu <? n_gpu_use);
      match goal with
      | |- context [torch_device ?s] => destruct (torch_device s)
      end; simpl; rewrite ?app_nil_r; auto.
Qed.

End DeviceMoreFacts.

(* ===================================================================== *)
(** ** Array persistence: several files                                   *)
(* ===================================================================== *)

Section NpyMoreFacts.
Import Npy.

Variable array : Type.
Variable np_save : array -> result bytes.
Variable np_load : bytes -> result array.
Variable gzip_compress : string -> Z -> bytes -> bytes.
Variable gzip_abandoned : string -> Z -> array -> bytes.
Variable gzip_decompress : bytes -> result bytes.
Variable open_write : string -> result string.
Variable open_read : string -> result string.

Local Abbreviation after :=
  (fs_after_save np_save gzip_compress gzip_abandoned open_write).
Local Abbreviation load := (load_to_npy_gz np_load gzip_decompress open_read).


(** Arrays saved under two filenames that name two different files do
    not disturb each other: each filename loads the array saved under
    it, and the files do not depend on which save was made first. *)
Theorem save_two_names (a b : array) (s t : string) (t1 t2 : Z)
        (fs : gmap string bytes) (fa fb : string) (ra rb : bytes) :
  open_write (s +:+ ".npy.gz") = Ok fa ->
  open_read (s +:+ ".npy.gz") = Ok fa ->
  open_write (t +:+ ".npy.gz") = Ok fb ->
  open_read (t +:+ ".npy.gz") = Ok fb ->
  fa <> fb ->
  np_save a = Ok ra ->
  gzip_decompress (gzip_compress (s +:+ ".npy.gz") t1 ra) = Ok ra ->
  np_load ra = Ok a ->
  np_save b = Ok rb ->
  gzip_decompress (gzip_compress (t +:+ ".npy.gz") t2 rb) = Ok rb ->
  np_load rb = Ok b ->
  let fs2 := after b t t2 (after a s t1 fs) in
  snd (load s fs2) = Ok a
  /\ snd (load t fs2) = Ok b
  /\ fs2 = after a s t1 (after b t t2 fs).
Proof.
  intros Hwa Hra Hwb Hrb Hne Hsa Hga Hla Hsb Hgb Hlb. cbv zeta.
  unfold fs_after_save, save_to_npy_gz, load_to_npy_gz.
  rewrite Hwa, Hwb, Hsa, Hsb, Hra, Hrb. simpl.
  rewrite lookup_insert_ne by congruence.
  rewrite !lookup_insert_eq. simpl.
  rewrite Hga, Hgb. simpl. rewrite Hla, Hlb.
  split; [reflexivity|]. split; [reflexivity|].
  apply insert_insert_ne. congruence.
Qed.

(** When the file that a filename names does not exist, loading it
    raises [FileNotFoundError] and changes nothing, also after a save
    under a filename that does not name that file, however that save
    ended. *)
Theorem load_other_name_raises (a : array) (s t : string) (now : Z)
        (fs : gmap string bytes) (file : string) :
  open_read (t +:+ ".npy.gz") = Ok file ->
  fs !! file = None ->
  open_write (s +:+ ".npy.gz") <> Ok file ->
  load t (after a s now fs)
  = (after a s now fs, [Read (t +:+ ".npy.gz")], Raise FileNotFoundError).
Proof.
  intros Hr Hnone Hother.
  unfold fs_after_save, save_to_npy_gz, load_to_npy_gz.
  rewrite Hr.
  destruct (open_write (s +:+ ".npy.gz")) as [f|e]; simpl.
  - assert (Hf : f <> file) by congruence.
    destruct (np_save a); simpl;
      rewrite lookup_insert_ne by exact Hf; rewrite Hnone; reflexivity.
  - rewrite Hnone. reflexivity.
Qed.

End NpyMoreFacts.


(** Weights and biases kept in two files of the working directory. *)
Lemma save_two_names_witness :
  snd (Npy.example_load "weights"
         (fst (fst (Npy.example_save [Byte.x02] "biases" 1
            (fst (fst (Npy.example_save [Byte.x01] "weights" 0 ∅)))))))
  = Ok [Byte.x01].
Proof.
  destruct (save_two_names Npy.bytes
              Npy.plain_save Npy.plain_load Npy.stored Npy.stored_nothing
              Npy.unstored Npy.open_in_work Npy.open_in_work
              [Byte.x01] [Byte.x02] "weights" "biases" 0 1 ∅
              "/work/weights.npy.gz" "/work/biases.npy.gz"
              [Byte.x01] [Byte.x02]
              eq_refl eq_refl eq_refl eq_refl ltac:(discriminate)
              eq_refl eq_refl eq_refl eq_refl eq_refl eq_refl) as [H _].
  exact H.
Defined.

(** Only the weights were saved; the biases cannot be loaded. *)
Lemma load_other_name_raises_witness :
  snd (Npy.example_load "biases"
         (fst (fst (Npy.example_save [Byte.x01] "weights" 0 ∅))))
  = Raise FileNotFoundError.
Proof.
  pose proof (load_other_name_raises Npy.bytes
                Npy.plain_save Npy.plain_load Npy.stored Npy.stored_nothing
                Npy.unstored Npy.open_in_work Npy.open_in_work
                [Byte.x01] "weights" "biases" 0 ∅ "/work/biases.npy.gz"
                eq_refl (lookup_empty _) ltac:(discriminate)) as H.
  unfold Npy.example_load, Npy.example_save.
  unfold Npy.fs_after_save in H. rewrite H. reflexivity.
Defined.

(* ===================================================================== *)
(** ** The accuracy accumulator over its life                             *)
(* ===================================================================== *)

Section AccuracyLifeFacts.
Import Torch Metric.

Lemma Accuracy_ext (a b : Accuracy) :
  _is_multilabel a = _is_multilabel b ->
  _type a = _type b ->
  _num_correct a = _num_correct b ->
  _num_examples a = _num_examples b ->
  best_accuracy a = best_accuracy b ->
  external_best_acc a = external_best_acc b ->
  a = b.
Proof.
  destruct a, b. simpl. intros. subst. reflexivity.
Qed.

Lemma compute_state (self : Accuracy) :
  fst (compute self)
  = if _num_examples self =? 0 then self
    else set_best_accuracy self
           (Qmax (best_accuracy self)
                 (inject_Z (_num_correct self) / inject_Z (_num_examples self))).
Proof.
  unfold compute. destruct (_num_examples self =? 0); [reflexivity|].
  simpl. rewrite <- best_after_compute.
  destruct (gt _ _); [reflexivity|].
  destruct self; reflexivity.
Qed.

Lemma Qmax_absorb (b a : Q) : Qmax (Qmax b a) a = Qmax b a.
Proof.
  unfold Qmax, GenericMinMax.gmax.
  destruct (b ?= a)%Q eqn:E; rewrite ?E; try reflexivity.
  assert (Ha : (a ?= a)%Q = Eq) by (apply Qeq_alt; apply Qeq_refl).
  now rewrite Ha.
Qed.

(** Computing twice in a row is the same as computing once: the second
    call gives the same outcome and changes nothing more. *)
Theorem compute_idempotent (self : Accuracy) :
  compute (fst (compute self)) = (fst (compute self), snd (compute self)).
Proof.
  assert (Hfix : fst (compute (fst (compute self))) = fst (compute self)).
  { rewrite !compute_state.
    destruct (_num_examples self =? 0) eqn:E; [now rewrite E|].
    simpl. rewrite E. unfold set_best_accuracy. simpl. f_equal.
    apply Qmax_absorb. }
  assert (Hout : snd (compute (fst (compute self))) = snd (compute self)).
  { rewrite !compute_outcome.
    destruct (compute_keeps_counters self) as (_ & -> & ->). reflexivity. }
  rewrite <- Hfix at 2. rewrite <- Hout.
  destruct (compute (fst (compute self))). reflexivity.
Qed.

Lemma step_best_accuracy (self : Accuracy) (c : call) :
  (best_accuracy self <= best_accuracy (step self c))%Q.
Proof.
  destruct c as [|b|]; simpl.
  - apply Qle_refl.
  - destruct (update_with_fields self b) as (_ & _ & -> & _).
    apply Qle_refl.
  - rewrite compute_state.
    destruct (_num_examples self =? 0); [apply Qle_refl|].
    simpl. apply Q.le_max_l.
Qed.

(** The best accuracy never goes down, whatever is called and in
    whatever order, and an accuracy that compute returns is never above
    the best accuracy read afterwards. *)
Theorem best_accuracy_never_decreases (self : Accuracy) (cs : list call) :
  (best_accuracy self <= get_best (fold_left step cs self))%Q
  /\ (forall acc, snd (compute self) = Ok acc ->
        (acc <= get_best (fold_left step cs (fst (compute self))))%Q).
Proof.
  assert (Hmono : forall cs s,
    (best_accuracy s <= best_accuracy (fold_left step cs s))%Q).
  { clear. induction cs as [|c cs IH]; intros s; simpl; [apply Qle_refl|].
    eapply Qle_trans; [apply step_best_accuracy | apply IH]. }
  unfold get_best. split; [apply Hmono|].
  intros acc Hacc.
  eapply Qle_trans; [|apply Hmono].
  rewrite compute_outcome in Hacc. rewrite compute_state.
  destruct (_num_examples self =? 0); [discriminate|].
  injection Hacc as <-. simpl. apply Q.le_max_r.
Qed.

Lemma batch_correct_nonneg (self : Accuracy) (b : batch) :
  0 <= fst (batch_counts self b).
Proof.
  unfold batch_counts.
  destruct (correct_of _ _ _ _ _) as [[[c|] ba]|e]; simpl; try lia.
  unfold sum_item. lia.
Qed.

(** From construction on, whatever the mode and whatever is called, the
    two counters are never negative. *)
Theorem counters_never_negative (is_multilabel : bool) (type : pyval)
        (cs : list call) :
  let self := fold_left step cs (init is_multilabel type) in
  0 <= _num_correct self /\ 0 <= _num_examples self.
Proof.
  cbv zeta.
  assert (Hinv : forall cs s,
    0 <= _num_correct s /\ 0 <= _num_examples s ->
    0 <= _num_correct (fold_left step cs s)
    /\ 0 <= _num_examples (fold_left step cs s)).
  { clear. induction cs as [|c cs IH]; intros s Hs; [exact Hs|].
    simpl. apply IH. destruct c as [|b|]; simpl.
    - lia.
    - destruct (update_with_fields s b) as (_ & _ & _ & _ & -> & ->).
      pose proof (batch_correct_nonneg s b).
      pose proof (batch_examples_nonneg s b). lia.
    - destruct (compute_keeps_counters s) as (_ & -> & ->). exact Hs. }
  apply Hinv. simpl. lia.
Qed.

Lemma zsum_perm (l l' : list Z) : Permutation l l' -> zsum l = zsum l'.
Proof.
  induction 1 as [|x l l' _ IH|x y l|l l' l'' _ IH1 _ IH2]; simpl; lia.
Qed.

(** The batches of an epoch may come in any order: the accumulator ends
    in the same state, so that compute gives the same outcome. *)
Theorem update_order_irrelevant (self : Accuracy) (bs bs' : list batch) :
  Permutation bs bs' ->
  run_updates (reset self) bs = run_updates (reset self) bs'
  /\ compute (run_updates (reset self) bs)
     = compute (run_updates (reset self) bs').
Proof.
  intros Hperm.
  assert (E : run_updates (reset self) bs = run_updates (reset self) bs').
  { destruct (run_updates_fields bs (reset self))
      as (Ht & Hm & Hb & He & Hc & Hn).
    destruct (run_updates_fields bs' (reset self))
      as (Ht' & Hm' & Hb' & He' & Hc' & Hn').
    apply Accuracy_ext; try congruence.
    - rewrite Hc, Hc'. f_equal. unfold total_correct.
      apply zsum_perm. now apply Permutation_map.
    - rewrite Hn, Hn'. f_equal. unfold total_examples.
      apply zsum_perm. now apply Permutation_map. }
  split; [exact E | now rewrite E].
Qed.

End AccuracyLifeFacts.

(** Two batches taken in either order. *)
Lemma update_order_irrelevant_witness :
  Metric.run_updates (Metric.reset (Metric.init false (PyStr "multiclass")))
    [Metric.empty_batch; Metric.pixel_batch]
  = Metric.run_updates (Metric.reset (Metric.init false (PyStr "multiclass")))
      [Metric.pixel_batch; Metric.empty_batch].
Proof.
  destruct (update_order_irrelevant
              (Metric.init false (PyStr "multiclass"))
              [Metric.empty_batch; Metric.pixel_batch]
              [Metric.pixel_batch; Metric.empty_batch]
              (perm_swap _ _ _)) as [H _].
  exact H.
Defined.

(* ===================================================================== *)
(** ** One update: what it leaves behind and what it returns              *)
(* ===================================================================== *)

Section UpdateFacts.
Import Torch Metric.

Lemma broadcast_rev_length (a : list nat) : forall (b r : list nat),
  broadcast_rev a b = Ok r -> length r = Nat.max (length a) (length b).
Proof.
  induction a as [|x a IH]; intros b r H.
  - simpl in H. injection H as <-. reflexivity.
  - destruct b as [|y b].
    + simpl in H. injection H as <-. reflexivity.
    + simpl in H. destruct (broadcast_rev a b) as [r'|e] eqn:E;
        simpl in H; [|discriminate].
      apply IH in E.
      destruct (Nat.eqb x y);
        [|destruct (Nat.eqb x 1); [|destruct (Nat.eqb y 1)]];
        try discriminate; injection H as <-; simpl; lia.
Qed.

Lemma eq_rank (a b : tensor) (c : btensor) :
  eq a b = Ok c ->
  length (bshape c) = Nat.max (length (shape a)) (length (shape b)).
Proof.
  intros H. apply eq_shape in H. destruct H as [H _].
  unfold broadcast_shapes in H.
  destruct (broadcast_rev (rev (shape a)) (rev (shape b))) as [r|e] eqn:E;
    simpl in H; [|discriminate].
  injection H as <-. apply broadcast_rev_length in E.
  rewrite length_rev, E, !length_rev. reflexivity.
Qed.

Lemma argmax_dim1_rank (t p : tensor) :
  argmax_dim1 t = Ok p -> (2 <= length (shape p))%nat.
Proof.
  unfold argmax_dim1. destruct (shape t) as [|n [|c rest]]; try discriminate.
  destruct (Nat.eqb c 0); [discriminate|].
  intros H. injection H as <-. simpl. lia.
Qed.

Lemma shape0_of_rank (c : btensor) :
  (1 <= length (bshape c))%nat -> exists n : nat, shape0 c = Ok (Z.of_nat n).
Proof.
  unfold shape0. destruct (bshape c) as [|n rest]; simpl; [lia|].
  intros _. exists n. reflexivity.
Qed.

(** The comparison of the arg-max with the targets, as the multiclass
    and the semisupervised branch make it. *)
Lemma argmax_comparison_rank (y t : tensor) (c : btensor) :
  (try! pred := argmax_dim1 y in
   try! tv := view_as t pred in
   eq pred tv) = Ok c ->
  (1 <= length (bshape c))%nat.
Proof.
  destruct (argmax_dim1 y) as [p|e] eqn:Ep; simpl; [|discriminate].
  apply argmax_dim1_rank in Ep.
  destruct (view_as t p) as [tv|e]; simpl; [|discriminate].
  intros H. apply eq_rank in H. lia.
Qed.

(** Whenever [update] reaches line 165, [correct] has a first
    dimension, so line 166 cannot fail after line 165 was run. *)
Lemma correct_has_rows (self : Accuracy) o t bc i c ba :
  correct_of self o t bc i = Ok (Some c, ba) ->
  exists n : nat, shape0 c = Ok (Z.of_nat n).
Proof.
  unfold correct_of, update_first, update_second, is_str.
  destruct (_type self) as [|z|s]; simpl; try discriminate.
  destruct (String.eqb_spec s "binary") as [->|N1].
  - simpl. destruct (eq _ _) as [c'|e] eqn:E; simpl; [|discriminate].
    intros H. injection H as <- <-. apply shape0_of_rank.
    apply eq_rank in E. simpl in E. lia.
  - destruct (String.eqb_spec s "multiclass") as [->|N2].
    + simpl.
      destruct (argmax_dim1 o) as [p|e] eqn:Ep; simpl; [|discriminate].
      destruct (view_as t p) as [tv|e]; simpl; [|discriminate].
      destruct (eq p tv) as [c'|e] eqn:E; simpl; [|discriminate].
      apply argmax_dim1_rank in Ep. apply eq_rank in E.
      assert (Hr : exists n : nat, shape0 c' = Ok (Z.of_nat n))
        by (apply shape0_of_rank; lia).
      destruct bc; simpl.
      * destruct (shape0 c') as [bd|e] eqn:Es; simpl; [|discriminate].
        destruct (truediv _ _); simpl; [|discriminate].
        intros H. injection H as <- <-. rewrite Es. exact Hr.
      * intros H. injection H as <- <-. exact Hr.
    + simpl. destruct (String.eqb_spec s "multilabel") as [->|N3].
      * destruct (size1 o) as [nc|e]; simpl; [|discriminate].
        destruct (transpose o _ _) as [yt|e]; simpl; [|discriminate].
        destruct (reshape_rows yt nc) as [y'|e] eqn:Ey; simpl;
          [|discriminate].
        destruct (transpose t _ _) as [tt'|e]; simpl; [|discriminate].
        destruct (reshape_rows tt' nc) as [t'|e] eqn:Et; simpl;
          [|discriminate].
        destruct (eq _ _) as [c'|e] eqn:E; simpl; [|discriminate].
        intros H. injection H as <- <-.
        apply eq_shape in E. destruct E as [Hb _].
        apply reshape_rows_shape in Ey, Et.
        destruct Ey as [m1 Hy], Et as [m2 Ht].
        unfold to in Hb. rewrite Hy, Ht in Hb.
        apply broadcast_rows in Hb. destruct Hb as (k & d & Hk).
        destruct (all_last_rows c' k d Hk) as [_ Hsh].
        apply shape0_of_rank. rewrite Hsh. simpl. lia.
      * destruct (String.eqb_spec s "semisupervised") as [->|N4];
          [|discriminate].
        destruct (getitem t i) as [t'|e]; simpl; [|discriminate].
        destruct (getitem o i) as [y'|e]; simpl; [|discriminate].
        destruct (argmax_dim1 y') as [p|e] eqn:Ep; simpl; [|discriminate].
        destruct (view_as t' p) as [tv|e]; simpl; [|discriminate].
        destruct (eq p tv) as [c'|e] eqn:E; simpl; [|discriminate].
        intros H. injection H as <- <-.
        apply argmax_dim1_rank in Ep. apply eq_rank in E.
        apply shape0_of_rank. lia.
Qed.

(** An update never moves one counter without the other. Either it
    raises before touching the object, which is left as it was, or it
    adds the batch's counts to both counters; in that case it returns,
    or raises for the one reason that [batch_accuracy] was never
    assigned. *)
Theorem update_all_or_nothing (self : Accuracy) (o t : tensor)
        (bc : bool) (i : index) :
  let r := update self o t bc i in
  let counts := batch_counts self (mk_batch o t bc i) in
  (fst r = self /\ raises (snd r))
  \/ (fst r = set_num_examples
                (set_num_correct self (_num_correct self + fst counts))
                (_num_examples self + snd counts)
      /\ (returns (snd r)
          \/ snd r = Raise (UnboundLocalError "batch_accuracy"))).
Proof.
  cbv zeta. unfold update, batch_counts. simpl.
  destruct (correct_of self o t bc i) as [[[c|] ba]|e] eqn:E.
  - destruct (correct_has_rows _ _ _ _ _ _ _ E) as [n Hn].
    rewrite Hn. simpl. right.
    destruct bc; [destruct ba|]; simpl; split; try reflexivity.
    + left. eexists. reflexivity.
    + right. reflexivity.
    + left. eexists. reflexivity.
  - left. split; [reflexivity | eexists; reflexivity].
  - left. split; [reflexivity | eexists; reflexivity].
Qed.

Lemma correct_of_outside_multiclass (self : Accuracy) o t bc i :
  _type self <> PyStr "multiclass" ->
  correct_of self o t bc i = correct_of self o t false i
  /\ (forall c ba, correct_of self o t bc i = Ok (c, ba) -> ba = None).
Proof.
  intros Hty. unfold correct_of, update_first.
  rewrite (is_str_false _ "multiclass") by exact Hty.
  destruct (is_str (_type self) "binary").
  - destruct (eq _ _) as [c'|e]; simpl.
    + split; [reflexivity|]. intros c ba.
      destruct (update_second _ _ _ _ _); simpl; [|discriminate].
      intros H. now injection H as <- <-.
    + split; [reflexivity | discriminate].
  - simpl. split; [reflexivity|]. intros c ba.
    destruct (update_second _ _ _ _ _); simpl; [|discriminate].
    intros H. now injection H as <- <-.
Qed.

(** Outside multiclass mode an update asked for the batch accuracy
    never returns: it fails as it would without the request or, having
    added the batch to the counters as it would without the request,
    raises because [batch_accuracy] was never assigned. *)
Theorem batch_compute_outside_multiclass (self : Accuracy) (o t : tensor)
        (i : index) :
  _type self <> PyStr "multiclass" ->
  raises (snd (update self o t true i))
  /\ fst (update self o t true i) = fst (update self o t false i).
Proof.
  intros Hty.
  destruct (correct_of_outside_multiclass self o t true i Hty) as [Eq Hba].
  unfold update. rewrite <- Eq.
  destruct (correct_of self o t true i) as [[[c|] ba]|e] eqn:E; simpl.
  - rewrite (Hba _ _ eq_refl).
    destruct (shape0 c); simpl; (split; [eexists|]; reflexivity).
  - split; [eexists|]; reflexivity.
  - split; [eexists|]; reflexivity.
Qed.

(** In multiclass mode an update asked for the batch accuracy returns
    the batch's correct count divided by its number of rows, and leaves
    the counters as the plain update does. On a batch without rows,
    which the plain update accepts, it raises [ZeroDivisionError]
    instead and leaves the object as it was. *)
Theorem multiclass_batch_accuracy (self : Accuracy) (o t : tensor)
        (i : index) :
  _type self = PyStr "multiclass" ->
  let counts := batch_counts self (mk_batch o t false i) in
  (forall r, snd (update self o t true i) = Ok r ->
     snd counts <> 0
     /\ r = Some (inject_Z (fst counts) / inject_Z (snd counts))%Q
     /\ fst (update self o t true i) = fst (update self o t false i))
  /\ (snd (update self o t false i) = Ok None ->
      snd counts <> 0 -> returns (snd (update self o t true i)))
  /\ (snd (update self o t false i) = Ok None ->
      snd counts = 0 ->
      update self o t true i = (self, Raise ZeroDivisionError)).
Proof.
  intros Hty. cbv zeta.
  unfold update, batch_counts, correct_of, update_first, update_second.
  rewrite Hty. simpl.
  destruct (argmax_dim1 o) as [p|e] eqn:Ep; simpl;
    [|repeat split; intros; discriminate].
  destruct (view_as t p) as [tv|e]; simpl;
    [|repeat split; intros; discriminate].
  destruct (eq p tv) as [c|e] eqn:E; simpl;
    [|repeat split; intros; discriminate].
  apply argmax_dim1_rank in Ep. apply eq_rank in E.
  destruct (shape0_of_rank c ltac:(lia)) as [n Hn].
  rewrite Hn. simpl. unfold truediv.
  destruct (Z.eqb_spec (Z.of_nat n) 0) as [E0|N0]; simpl.
  - repeat split; intros; try discriminate; contradiction.
  - rewrite Hn. simpl. split; [|split].
    + intros r H. injection H as <-. repeat split. exact N0.
    + intros _ _. eexists. reflexivity.
    + intros _ H0. contradiction.
Qed.

End UpdateFacts.

(** Binary mode, batch accuracy requested on the empty batch. *)
Lemma batch_compute_outside_multiclass_witness :
  raises (snd (Metric.update (Metric.init false (PyStr "binary"))
                 (Metric.output Metric.empty_batch)
                 (Metric.target Metric.empty_batch) true Torch.IdxNone)).
Proof.
  destruct (batch_compute_outside_multiclass
              (Metric.init false (PyStr "binary"))
              (Metric.output Metric.empty_batch)
              (Metric.target Metric.empty_batch) Torch.IdxNone
              ltac:(discriminate)) as [H _].
  exact H.
Defined.

(** Multiclass mode on the two-pixel image: the batch accuracy comes
    back. *)
Lemma multiclass_batch_accuracy_witness :
  returns (snd (Metric.update (Metric.init false (PyStr "multiclass"))
                  (Metric.output Metric.pixel_batch)
                  (Metric.target Metric.pixel_batch) true Torch.IdxNone)).
Proof.
  destruct (multiclass_batch_accuracy
              (Metric.init false (PyStr "multiclass"))
              (Metric.output Metric.pixel_batch)
              (Metric.target Metric.pixel_batch) Torch.IdxNone eq_refl)
    as (_ & H & _).
  apply H; [reflexivity | discriminate].
Defined.

(* ===================================================================== *)
(** ** When the accuracy is a proportion                                  *)
(* ===================================================================== *)

Section ProportionFacts.
Import Torch Metric.

Lemma getitem_rows_shape (y y' : tensor) (i : index) (n c : nat) :
  shape y = [n; c] -> i <> IdxNone -> getitem y i = Ok y' ->
  exists m, shape y' = [m; c].
Proof.
  intros Hsh Hi. unfold getitem. destruct i as [|l|m]; [contradiction| |].
  - rewrite Hsh. destruct (wrap_all n l) as [rows|e]; simpl; [|discriminate].
    intros H. injection H as <-. eexists. reflexivity.
  - rewrite Hsh. destruct (Nat.eqb (length m) n); [|discriminate].
    intros H. injection H as <-. eexists. reflexivity.
Qed.

(** In semisupervised mode the bound holds for predictions of shape
    (N, C) indexed by positions or by a mask. *)
Lemma semisupervised_counts_bounded (self : Accuracy) (b : batch)
      (n c : nat) :
  _type self = PyStr "semisupervised" ->
  shape (output b) = [n; c] -> idx b <> IdxNone ->
  0 <= fst (batch_counts self b) <= snd (batch_counts self b).
Proof.
  intros Hty Hsh Hi.
  unfold batch_counts, correct_of, update_first, update_second.
  rewrite Hty. simpl.
  destruct (getitem (target b) (idx b)) as [t'|e]; simpl; [|lia].
  destruct (getitem (output b) (idx b)) as [y'|e] eqn:Ey; simpl; [|lia].
  destruct (getitem_rows_shape _ _ _ _ _ Hsh Hi Ey) as [m Hm].
  destruct (argmax_dim1 y') as [p|e] eqn:Ep; simpl; [|lia].
  apply (argmax_dim1_shape _ _ m c Hm) in Ep.
  unfold view_as. destruct (Nat.eqb _ _); simpl; [|lia].
  destruct (eq _ _) as [cr|e] eqn:E; simpl; [|lia].
  apply eq_shape in E. destruct E as [Hb Hwf]. simpl in Hb.
  rewrite Ep in Hb. apply broadcast_column in Hb.
  split; [unfold sum_item; lia | eapply counts_le_column; eassumption].
Qed.

Lemma counts_bounded (self : Accuracy) (b : batch) :
  one_example_per_prediction self b ->
  0 <= fst (batch_counts self b) <= snd (batch_counts self b).
Proof.
  intros [H|[H|[[H (n & c & Hs)]|[H [(n & c & Hs) Hi]]]]].
  - now apply binary_counts_bounded.
  - now apply multilabel_counts_bounded.
  - now apply (multiclass_counts_bounded self b n c).
  - apply (semisupervised_counts_bounded self b n c); try assumption.
    destruct Hi as [[l Hl]|[m Hm]]; congruence.
Qed.

(** On such inputs the accuracy is a proportion: after a reset and any
    updates, the correct count lies between zero and the example count,
    and a compute that succeeds returns a value between 0 and 1. *)
Theorem accuracy_is_a_proportion (self : Accuracy) (bs : list batch) :
  List.Forall (one_example_per_prediction self) bs ->
  let final := run_updates (reset self) bs in
  counters_ordered final
  /\ (forall v, snd (compute final) = Ok v -> (0 <= v <= 1)%Q).
Proof.
  intros Hall. cbv zeta.
  assert (Hord : counters_ordered (run_updates (reset self) bs)).
  { unfold counters_ordered.
    destruct (counters_after_updates self bs) as [-> ->].
    unfold total_correct, total_examples.
    induction Hall as [|b bs Hb _ IH]; simpl; [lia|].
    pose proof (counts_bounded self b Hb). lia. }
  split; [exact Hord|].
  intros v Hv. eapply compute_in_unit_interval; eassumption.
Qed.

End ProportionFacts.

(** Three examples in multiclass mode. *)
Lemma accuracy_is_a_proportion_witness :
  Metric.counters_ordered
    (Metric.run_updates
       (Metric.reset (Metric.init false (PyStr "multiclass")))
       [Metric.row_batch]).
Proof.
  assert (H : List.Forall
                (Metric.one_example_per_prediction
                   (Metric.init false (PyStr "multiclass")))
                [Metric.row_batch]).
  { constructor; [|constructor].
    right; right; left. split; [reflexivity|].
    exists 3%nat, 2%nat. reflexivity. }
  destruct (accuracy_is_a_proportion _ _ H) as [Hord _].
  exact Hord.
Defined.

(* ===================================================================== *)
(** ** Chunking by any size, and the number of tables                     *)
(* ===================================================================== *)

Section ChunkFacts.
Import Markdown.

Lemma ceil_bounds (n size : nat) :
  (0 < size)%nat ->
  let m := ((n + (size - 1)) / size)%nat in
  (n <= m * size /\ m * size < n + size)%nat.
Proof.
  intros Hs. cbv zeta.
  pose proof (Nat.div_mod_eq (n + (size - 1)) size) as Hd.
  pose proof (Nat.mod_upper_bound (n + (size - 1)) size ltac:(lia)) as Hm.
  rewrite (Nat.mul_comm size) in Hd. lia.
Qed.

(** The generator [get_chunk] cuts a dict into consecutive runs of
    [size] entries for any positive [size]: the runs put end to end give
    the dict back, none is empty and none holds more than [size]
    entries. *)
Theorem get_chunk_any_size (d : pydict) (size : nat) :
  (0 < size)%nat ->
  well_formed d ->
  get_chunk d size = Ok (chunks size d)
  /\ concat (chunks size d) = d
  /\ List.Forall (fun c => (1 <= length c <= size)%nat) (chunks size d).
Proof.
  intros Hs Hwf. unfold well_formed in Hwf.
  destruct (ceil_bounds (length d) size Hs) as [Hlo Hhi].
  split; [|split].
  - unfold get_chunk, chunks.
    change (keys d) with (skipn (0 * size) (keys d)).
    rewrite get_chunk_loop_chunks by exact Hwf.
    unfold py_range. now rewrite length_map, length_seq, Nat.sub_0_r.
  - unfold chunks. rewrite concat_chunk_run. simpl skipn.
    now apply firstn_all2.
  - unfold chunks. apply List.Forall_forall. intros c Hc.
    apply in_map_iff in Hc. destruct Hc as (i & <- & Hi).
    apply in_seq in Hi. rewrite length_chunk_at.
    assert (S i * size <= ((length d + (size - 1)) / size) * size)%nat
      by (apply Nat.mul_le_mono_r; lia).
    simpl in *. lia.
Qed.

(** The number of tables is the number of entries divided by ten,
    rounded up: there is no table exactly when the dict is empty. *)
Theorem dict_to_md_table_count (d : pydict) (vis_size : pyval) :
  well_formed d ->
  exists tables : list string,
    dict_to_md d vis_size = Ok tables
    /\ length tables = ((length d + 9) / 10)%nat
    /\ (tables = [] <-> d = []).
Proof.
  intros Hwf. unfold well_formed in Hwf.
  exists (map markdown_table (chunks 10 d)).
  split; [|split].
  - unfold dict_to_md. now rewrite get_chunk_chunks.
  - unfold chunks. now rewrite !length_map, length_seq.
  - destruct (ceil_ten (length d)) as [Hlo Hhi]. split.
    + intros E. apply (f_equal (@length string)) in E.
      unfold chunks in E. rewrite !length_map, length_seq in E.
      simpl in E.
      destruct d; [reflexivity | simpl in *; lia].
    + intros ->. reflexivity.
Qed.

End ChunkFacts.

(** Three settings cut in runs of two. *)
Lemma get_chunk_any_size_witness :
  Markdown.get_chunk Markdown.sample_dict 2
  = Ok (Markdown.chunks 2 Markdown.sample_dict).
Proof.
  assert (Hwf : Markdown.well_formed Markdown.sample_dict).
  { unfold Markdown.well_formed. simpl.
    repeat constructor; simpl; intuition discriminate. }
  destruct (get_chunk_any_size Markdown.sample_dict 2 ltac:(lia) Hwf)
    as [H _].
  exact H.
Defined.

(** Three settings make one table. *)
Lemma dict_to_md_table_count_witness :
  exists tables : list string,
    Markdown.dict_to_md Markdown.sample_dict PyNone = Ok tables
    /\ length tables = 1%nat.
Proof.
  assert (Hwf : Markdown.well_formed Markdown.sample_dict).
  { unfold Markdown.well_formed. simpl.
    repeat constructor; simpl; intuition discriminate. }
  destruct (dict_to_md_table_count Markdown.sample_dict PyNone Hwf)
    as (tables & H1 & H2 & _).
  exists tables. split; [exact H1 | exact H2].
Defined.

(* ===================================================================== *)
(** ** What the counters count                                            *)
(* ===================================================================== *)

Section CountingFacts.
Import Torch Metric.

Lemma nth_map_seq {A} (G : nat -> A) (n k : nat) (d : A) :
  (k < n)%nat -> nth k (map G (seq 0 n)) d = G k.
Proof.
  intros Hk.
  rewrite (nth_indep _ d (G 0%nat)) by now rewrite length_map, length_seq.
  rewrite map_nth. f_equal. now rewrite seq_nth.
Qed.

Lemma map_seq_shift {A} (F : nat -> A) (n : nat) :
  map F (seq 0 (S n)) = F 0%nat :: map (fun k => F (S k)) (seq 0 n).
Proof. simpl. f_equal. now rewrite <- seq_shift, map_map. Qed.

(** Two tensors of one dimension and the same length are compared
    position by position. *)
Lemma eq_flat_data (a b : tensor) (n : nat) :
  shape a = [n] -> shape b = [n] ->
  eq a b = Ok (mk_btensor [n]
                 (map (fun k => nth k (data a) 0 =? nth k (data b) 0)
                      (seq 0 n))).
Proof.
  intros Ha Hb. unfold eq, broadcast_shapes. rewrite Ha, Hb. simpl.
  rewrite Nat.eqb_refl. simpl. do 2 f_equal.
  unfold tabulate. simpl numel. rewrite Nat.mul_1_r.
  apply map_ext_in. intros k Hk. apply in_seq in Hk.
  unfold get, operand_index. rewrite Ha, Hb.
  cbn [unravel numel fold_right length Nat.sub skipn combine map fst snd
         ravel].
  rewrite Nat.div_1_r.
  destruct (Nat.eqb_spec n 1) as [->|_].
  - replace k with 0%nat by lia. reflexivity.
  - now rewrite Nat.mul_1_r, Nat.add_0_r.
Qed.

Lemma count_agreements (da : list Z) : forall db : list Z,
  length da = length db ->
  count_true (map (fun k => nth k da 0 =? nth k db 0) (seq 0 (length da)))
  = agreements da db.
Proof.
  induction da as [|x da IH]; intros [|y db] Hlen; try discriminate.
  - reflexivity.
  - simpl length. rewrite map_seq_shift. simpl.
    rewrite IH by (simpl in Hlen; lia). reflexivity.
Qed.

(** In binary mode, on a prediction that the cast to the type of the
    target leaves as it is (the two are of one type) and that holds as
    many elements as the target, an update counts the positions at
    which the flattened prediction equals the flattened target as
    correct, and every position as an example. *)
Theorem binary_counts_agreements (self : Accuracy) (b : batch) :
  _type self = PyStr "binary" ->
  to (view_flat (output b)) (target b) = view_flat (output b) ->
  length (data (output b)) = numel (shape (output b)) ->
  length (data (target b)) = numel (shape (target b)) ->
  numel (shape (output b)) = numel (shape (target b)) ->
  batch_counts self b
  = (Z.of_nat (agreements (data (output b)) (data (target b))),
     Z.of_nat (length (data (output b)))).
Proof.
  intros Hty Hcast Ho Ht Hn.
  unfold batch_counts, correct_of, update_first, update_second.
  rewrite Hty. simpl. rewrite Hcast.
  rewrite (eq_flat_data _ _ (numel (shape (output b))))
    by (unfold view_flat; simpl; congruence).
  simpl. unfold sum_item. simpl.
  rewrite <- Ho, count_agreements by congruence. reflexivity.
Qed.

Lemma nth_skipn_add {A} (c : nat) : forall (l : list A) (m : nat) (d : A),
  nth (c + m) l d = nth m (skipn c l) d.
Proof.
  induction c as [|c IH]; intros l m d; [reflexivity|].
  destruct l as [|x l]; simpl; [now destruct m | apply IH].
Qed.

Lemma map_nth_firstn {A} (c : nat) : forall (l : list A) (d : A),
  (c <= length l)%nat ->
  map (fun j => nth j l d) (seq 0 c) = firstn c l.
Proof.
  induction c as [|c IH]; intros l d Hc; [reflexivity|].
  destruct l as [|x l]; simpl in Hc; [lia|].
  rewrite map_seq_shift. simpl. f_equal. apply IH. lia.
Qed.

(** The arg-max along the classes of scores of shape (N, C): one index
    per example. *)
Lemma argmax_dim1_rows (t : tensor) (n c : nat) :
  shape t = [n; c] -> c <> 0%nat ->
  argmax_dim1 t
  = Ok (mk_tensor [n; 1%nat]
          (map (fun k =>
                  Z.of_nat (first_argmax
                    (map (fun j => nth (k * c + j) (data t) 0) (seq 0 c))))
               (seq 0 n))).
Proof.
  intros Hsh Hc. unfold argmax_dim1. rewrite Hsh.
  destruct (Nat.eqb_spec c 0) as [E|_]; [contradiction|].
  do 2 f_equal. unfold tabulate.
  replace (numel [n; 1%nat]) with n by (simpl; lia).
  apply map_ext_in. intros k Hk.
  cbn [unravel numel fold_right]. do 2 f_equal.
  apply map_ext. intros j. unfold get. rewrite Hsh.
  cbn [ravel numel fold_right]. f_equal.
  change (1 * 1)%nat with 1%nat. rewrite Nat.div_1_r. lia.
Qed.

(** Two tensors of shape (N, 1) are compared row by row. *)
Lemma eq_column_data (a b : tensor) (n : nat) :
  shape a = [n; 1%nat] -> shape b = [n; 1%nat] ->
  eq a b = Ok (mk_btensor [n; 1%nat]
                 (map (fun k => nth k (data a) 0 =? nth k (data b) 0)
                      (seq 0 n))).
Proof.
  intros Ha Hb. unfold eq, broadcast_shapes. rewrite Ha, Hb. simpl.
  rewrite Nat.eqb_refl. simpl. do 2 f_equal.
  unfold tabulate. replace (numel [n; 1%nat]) with n by (simpl; lia).
  apply map_ext_in. intros k Hk. apply in_seq in Hk.
  unfold get, operand_index. rewrite Ha, Hb.
  cbn [unravel numel fold_right length Nat.sub skipn combine map fst snd
         ravel Nat.eqb].
  change (1 * 1)%nat with 1%nat. rewrite Nat.div_1_r.
  destruct (Nat.eqb_spec n 1) as [->|_].
  - replace k with 0%nat by lia. reflexivity.
  - do 2 f_equal; lia.
Qed.

Lemma count_row_hits (c : nat) (labels : list Z) : forall scores : list Z,
  length scores = (length labels * c)%nat ->
  count_true
    (map (fun k =>
            Z.of_nat (first_argmax
              (map (fun j => nth (k * c + j) scores 0) (seq 0 c)))
            =? nth k labels 0)
         (seq 0 (length labels)))
  = row_hits c scores labels.
Proof.
  induction labels as [|y labels IH]; intros scores Hlen; [reflexivity|].
  simpl length. rewrite map_seq_shift. simpl count_true. simpl row_hits.
  rewrite (map_nth_firstn c scores 0) by (simpl in Hlen; lia).
  f_equal. rewrite <- (IH (skipn c scores))
    by (rewrite length_skipn; simpl in Hlen; lia).
  f_equal. apply map_ext. intros k.
  assert (Hrow : map (fun j => nth (c + k * c + j) scores 0) (seq 0 c)
                 = map (fun j => nth (k * c + j) (skipn c scores) 0)
                       (seq 0 c)).
  { apply map_ext. intros j. rewrite <- Nat.add_assoc.
    apply nth_skipn_add. }
  now rewrite Hrow.
Qed.

(** In multiclass mode, on scores of shape (N, C) with one label per
    example, an update counts as correct the examples whose label is the
    position of the first largest of their scores, and counts N
    examples. *)
Theorem multiclass_counts_row_hits (self : Accuracy) (b : batch)
        (n c : nat) :
  _type self = PyStr "multiclass" ->
  shape (output b) = [n; c] -> c <> 0%nat ->
  length (data (output b)) = (n * c)%nat ->
  numel (shape (target b)) = n ->
  length (data (target b)) = n ->
  batch_counts self b
  = (Z.of_nat (row_hits c (data (output b)) (data (target b))), Z.of_nat n).
Proof.
  intros Hty Hsh Hc Hlo Hnt Hlt.
  unfold batch_counts, correct_of, update_first, update_second.
  rewrite Hty. simpl.
  rewrite (argmax_dim1_rows _ n c Hsh Hc). simpl.
  unfold view_as. simpl shape. replace (numel [n; 1%nat]) with n
    by (simpl; lia).
  rewrite Hnt, Nat.eqb_refl. simpl.
  rewrite (eq_column_data _ _ n) by reflexivity. simpl.
  assert (Hsum :
    sum_item
      {| bshape := [n; 1%nat];
         bdata :=
           map (fun k =>
                  nth k
                    (map (fun k0 =>
                            Z.of_nat (first_argmax
                              (map (fun j => nth (k0 * c + j)
                                                 (data (output b)) 0)
                                   (seq 0 c))))
                         (seq 0 n)) 0
                  =? nth k (data (target b)) 0)
               (seq 0 n) |}
    = Z.of_nat (row_hits c (data (output b)) (data (target b)))).
  { unfold sum_item. simpl. f_equal.
    rewrite <- count_row_hits by (rewrite Hlt; exact Hlo).
    rewrite Hlt. f_equal. apply map_ext_in. intros k Hk.
    apply in_seq in Hk. rewrite nth_map_seq by lia. reflexivity. }
  destruct (batch_compute b); simpl.
  - unfold truediv. destruct (Z.eqb_spec (Z.of_nat n) 0) as [E|NE]; simpl.
    + assert (Hn0 : n = 0%nat) by lia.
      destruct (data (target b)) as [|y l]; [|simpl in Hlt; lia].
      simpl. rewrite Hn0. reflexivity.
    + now rewrite Hsum.
  - now rewrite Hsum.
Qed.

Lemma flat_index_rows (c m : nat) :
  c <> 0%nat ->
  (m / (c * 1) * (c * 1) + (m mod (c * 1) / 1 * 1 + 0))%nat = m.
Proof.
  intros Hc. rewrite Nat.mul_1_r, Nat.div_1_r, Nat.mul_1_r, Nat.add_0_r.
  pose proof (Nat.div_mod_eq m c). lia.
Qed.

(** On a tensor of shape (N, C) the transposition that [update] makes in
    multilabel mode exchanges the last dimension with itself. *)
Lemma transpose_rows_id (t : tensor) (n c : nat) :
  shape t = [n; c] -> c <> 0%nat -> length (data t) = (n * c)%nat ->
  transpose t 1 (ndimension t - 1) = Ok t.
Proof.
  intros Hsh Hc Hlen. unfold transpose, ndimension. rewrite Hsh.
  change (length [n; c] - 1)%nat with 1%nat.
  change (swap 1 1 [n; c]) with [n; c].
  change ((1 <? length [n; c])%nat && (1 <? length [n; c])%nat) with true.
  cbv iota.
  destruct t as [sh d]. simpl in Hsh, Hlen. subst sh. do 2 f_equal.
  unfold tabulate. replace (numel [n; c]) with (n * c)%nat by (simpl; lia).
  transitivity (map (fun m => nth m d 0) (seq 0 (n * c)));
    [|rewrite map_nth_firstn by lia; rewrite <- Hlen; apply firstn_all].
  apply map_ext. intros m. unfold get.
  cbn [unravel numel fold_right shape data].
  change (swap 1 1 [(m / (c * 1))%nat; (m mod (c * 1) / 1)%nat])
    with [(m / (c * 1))%nat; (m mod (c * 1) / 1)%nat].
  cbn [ravel numel fold_right].
  f_equal. now apply flat_index_rows.
Qed.

Lemma reshape_rows_id (t : tensor) (n c : nat) :
  shape t = [n; c] -> c <> 0%nat -> reshape_rows t c = Ok t.
Proof.
  intros Hsh Hc. unfold reshape_rows. rewrite Hsh.
  replace (numel [n; c]) with (n * c)%nat by (simpl; lia).
  destruct (Nat.eqb_spec c 0) as [E|_]; [contradiction|].
  rewrite Nat.Div0.mod_mul, Nat.div_mul by exact Hc. simpl.
  destruct t as [sh d]. simpl in *. now subst sh.
Qed.

(** Two tensors of the same shape (N, C) are compared element by
    element. *)
Lemma eq_rows_data (a b : tensor) (n c : nat) :
  shape a = [n; c] -> shape b = [n; c] -> c <> 0%nat ->
  eq a b = Ok (mk_btensor [n; c]
                 (map (fun m => nth m (data a) 0 =? nth m (data b) 0)
                      (seq 0 (n * c)))).
Proof.
  intros Ha Hb Hc. unfold eq, broadcast_shapes. rewrite Ha, Hb. simpl.
  rewrite !Nat.eqb_refl. simpl. do 2 f_equal.
  unfold tabulate. replace (numel [n; c]) with (n * c)%nat by (simpl; lia).
  apply map_ext_in. intros m Hm. apply in_seq in Hm.
  unfold get, operand_index. rewrite Ha, Hb.
  cbn [unravel numel fold_right length Nat.sub skipn combine map fst snd
         ravel].
  assert (Hi : ((if Nat.eqb n 1 then 0 else m / (c * 1)) * (c * 1)
                + ((if Nat.eqb c 1 then 0 else m mod (c * 1) / 1) * 1 + 0))%nat
               = m).
  { rewrite <- (flat_index_rows c m Hc) at 3.
    rewrite !Nat.mul_1_r, !Nat.div_1_r.
    destruct (Nat.eqb_spec n 1) as [->|_];
      destruct (Nat.eqb_spec c 1) as [->|_].
    - rewrite Nat.mod_1_r, Nat.div_1_r. lia.
    - rewrite (Nat.div_small m c) by lia. reflexivity.
    - rewrite Nat.mod_1_r. reflexivity.
    - reflexivity. }
  now rewrite Hi.
Qed.

Lemma forallb_map_seq {A} (F : A -> bool) (g : nat -> A) (l : list nat) :
  forallb F (map g l) = forallb (fun j => F (g j)) l.
Proof. induction l as [|x l IH]; simpl; [reflexivity | now rewrite IH]. Qed.

Lemma forallb_pointwise {A} (F G : A -> bool) (l : list A) :
  (forall x, F x = G x) -> forallb F l = forallb G l.
Proof.
  intros H. induction l as [|x l IH]; simpl; [reflexivity|].
  now rewrite H, IH.
Qed.

Lemma forallb_pointwise_in {A} (F G : A -> bool) (l : list A) :
  (forall x, In x l -> F x = G x) -> forallb F l = forallb G l.
Proof.
  induction l as [|x l IH]; intros H; simpl; [reflexivity|].
  rewrite (H x) by now left.
  rewrite IH; [reflexivity|]. intros y Hy. apply H. now right.
Qed.

Lemma forallb_nth_combine (c : nat) : forall a b : list Z,
  (c <= length a)%nat -> (c <= length b)%nat ->
  forallb (fun j => nth j a 0 =? nth j b 0) (seq 0 c)
  = forallb (fun p => Z.eqb (fst p) (snd p))
            (combine (firstn c a) (firstn c b)).
Proof.
  induction c as [|c IH]; intros a b Ha Hb; [reflexivity|].
  destruct a as [|x a]; simpl in Ha; [lia|].
  destruct b as [|y b]; simpl in Hb; [lia|].
  simpl. f_equal. rewrite <- seq_shift, forallb_map_seq. apply IH; lia.
Qed.

Lemma count_row_matches (c : nat) (n : nat) : forall preds targets : list Z,
  length preds = (n * c)%nat -> length targets = (n * c)%nat ->
  count_true
    (map (fun k =>
            forallb (fun j => nth (k * c + j) targets 0
                              =? nth (k * c + j) preds 0) (seq 0 c))
         (seq 0 n))
  = row_matches n c preds targets.
Proof.
  induction n as [|n IH]; intros preds targets Hp Ht; [reflexivity|].
  rewrite map_seq_shift. simpl count_true. simpl row_matches.
  rewrite (forallb_nth_combine c targets preds)
    by (simpl in Hp, Ht; lia).
  f_equal. rewrite <- IH
    by (rewrite length_skipn; simpl in Hp, Ht; lia).
  f_equal. apply map_ext. intros k. apply forallb_pointwise. intros j.
  rewrite <- !Nat.add_assoc. now rewrite !nth_skipn_add.
Qed.

(** In multilabel mode, on predictions and targets of the same shape
    (N, C), the predictions being left as they are by the cast to the
    type of the targets (the two are of one type), an update counts as
    correct the examples all of whose C predicted labels equal their
    target labels, and counts N examples. *)
Theorem multilabel_counts_row_matches (self : Accuracy) (b : batch)
        (n c : nat) :
  _type self = PyStr "multilabel" ->
  to (output b) (target b) = output b ->
  shape (output b) = [n; c] -> shape (target b) = [n; c] -> c <> 0%nat ->
  length (data (output b)) = (n * c)%nat ->
  length (data (target b)) = (n * c)%nat ->
  batch_counts self b
  = (Z.of_nat (row_matches n c (data (output b)) (data (target b))),
     Z.of_nat n).
Proof.
  intros Hty Hcast Ho Ht Hc Hlo Hlt.
  unfold batch_counts, correct_of, update_first, update_second.
  rewrite Hty. simpl. unfold size1. rewrite Ho. simpl.
  rewrite (transpose_rows_id _ n c Ho Hc Hlo). simpl.
  rewrite (reshape_rows_id _ n c Ho Hc). simpl.
  assert (Hnd : ndimension (output b) = ndimension (target b))
    by (unfold ndimension; now rewrite Ho, Ht).
  rewrite Hnd, (transpose_rows_id _ n c Ht Hc Hlt). simpl.
  rewrite (reshape_rows_id _ n c Ht Hc). simpl.
  rewrite Hcast, (eq_rows_data _ _ n c Ht Ho Hc). simpl.
  unfold all_last, shape0, sum_item. simpl. f_equal.
  rewrite Nat.mul_1_r. f_equal.
  rewrite <- count_row_matches by assumption.
  f_equal. apply map_ext_in. intros k Hk. apply in_seq in Hk.
  apply forallb_pointwise_in. intros j Hj. apply in_seq in Hj.
  assert (S k * c <= n * c)%nat by (apply Nat.mul_le_mono_r; lia).
  rewrite (nth_map_seq
             (fun m => nth m (data (target b)) 0 =? nth m (data (output b)) 0)
             (n * c) (k * c + j) false) by (simpl in *; lia).
  reflexivity.
Qed.

End CountingFacts.

(** Three predictions of which the first and the last are right. *)
Lemma binary_counts_agreements_witness :
  Metric.batch_counts (Metric.init false (PyStr "binary")) Metric.flat_batch
  = (2, 3).
Proof.
  rewrite (binary_counts_agreements (Metric.init false (PyStr "binary"))
             Metric.flat_batch eq_refl eq_refl eq_refl eq_refl eq_refl).
  reflexivity.
Defined.

(** Three examples over two classes: the first two are labelled right. *)
Lemma multiclass_counts_row_hits_witness :
  Metric.batch_counts (Metric.init false (PyStr "multiclass"))
    Metric.row_batch
  = (2, 3).
Proof.
  rewrite (multiclass_counts_row_hits
             (Metric.init false (PyStr "multiclass")) Metric.row_batch
             3 2 eq_refl eq_refl ltac:(discriminate) eq_refl eq_refl
             eq_refl).
  reflexivity.
Defined.

(** Two examples of three labels: only the first is matched in full. *)
Lemma multilabel_counts_row_matches_witness :
  Metric.batch_counts (Metric.init false (PyStr "multilabel"))
    Metric.label_batch
  = (1, 2).
Proof.
  rewrite (multilabel_counts_row_matches
             (Metric.init false (PyStr "multilabel")) Metric.label_batch
             2 3 eq_refl eq_refl eq_refl eq_refl ltac:(discriminate)
             eq_refl eq_refl).
  reflexivity.
Defined.
